(** * Ultimate Squeeze Scanner (api/index.py): a shallow embedding

    The scanner fetches price records and short-interest metrics for a batch
    of tickers, scores every ticker and ranks the results.  This file embeds
    the [handler] class of [api/index.py] and proves properties of it.

    Modelling conventions
    - Python numbers (the [int] and [float] values the handler computes
      with) are exact rationals [Q]; IEEE rounding, NaN and the infinities
      are outside the model.  Numeric results are compared with [==].
    - A Python value that may be [None] is an [option].
    - [try: ... except Exception:] is an explicit exception monad [exn].
    - The network, the JSON parser, the string hash, the pseudo-random
      generator and the iteration order of a [set] are the fields of a
      [World]; network requests are logged in the order they are issued.
    - Wall-clock readings ([timestamp], [scan_time_seconds],
      [performance_rating]) are left out of the records. *)

From Stdlib Require Import QArith Qround Qminmax ZArith Lia Lqa Ascii String.
From stdpp Require Import gmap strings list sorting.

Open Scope string_scope.
Set Warnings "-register-all,-clear-no-such-hyp".

(** ** Python primitives *)

Module Py.

(** [a < b] on numbers. *)
Definition ltb (a b : Q) : bool := negb (Qle_bool b a).

(** [min(a, b)]: the first argument unless the second is smaller. *)
Definition min (a b : Q) : Q := if ltb b a then b else a.

(** [max(a, b)]: the first argument unless the second is larger. *)
Definition max (a b : Q) : Q := if ltb a b then b else a.

(** [int(x)] on a float: truncation toward zero. *)
Definition int (x : Q) : Z := Z.quot (Qnum x) (Z.pos (Qden x)).

(** Truthiness of a number: everything but zero. *)
Definition truthy (x : Q) : bool := negb (Qeq_bool x 0).

(** Truthiness of a possibly-[None] number, as in [if processed['k']:]. *)
Definition truthy_opt (v : option Q) : bool :=
  match v with
  | Some x => truthy x
  | None => false
  end.

(** [round(x, 1)] in exact arithmetic: nearest tenth, ties to even. *)
Definition round_half_even (x : Q) : Z :=
  let f := Qfloor x in
  let r := (x - inject_Z f)%Q in
  if ltb r (1 # 2) then f
  else if ltb (1 # 2) r then (f + 1)%Z
  else if Z.even f then f else (f + 1)%Z.

Definition round (x : Q) (ndigits : positive) : Q :=
  let scale := (10 ^ ndigits)%positive in
  (round_half_even (x * inject_Z (Z.pos scale)) # scale)%Q.

(** [s[:n]] on a list: a negative [n] counts from the end. *)
Definition slice_to {A} (l : list A) (n : Z) : list A :=
  if (0 <=? n)%Z then take (Z.to_nat n) l
  else take (Z.to_nat (Z.of_nat (length l) + n)) l.

(** ASCII part of [str.lower()]. *)
Definition lower_ascii (c : ascii) : ascii :=
  let n := nat_of_ascii c in
  if (65 <=? n)%nat && (n <=? 90)%nat then ascii_of_nat (n + 32) else c.

Fixpoint lower (s : string) : string :=
  match s with
  | EmptyString => EmptyString
  | String c s' => String (lower_ascii c) (lower s')
  end.

Definition upper_ascii (c : ascii) : ascii :=
  let n := nat_of_ascii c in
  if (97 <=? n)%nat && (n <=? 122)%nat then ascii_of_nat (n - 32) else c.

Fixpoint upper (s : string) : string :=
  match s with
  | EmptyString => EmptyString
  | String c s' => String (upper_ascii c) (upper s')
  end.

(** [needle in hay] on strings. *)
Fixpoint contains (needle hay : string) : bool :=
  String.prefix needle hay ||
  match hay with
  | EmptyString => false
  | String _ hay' => contains needle hay'
  end.

End Py.

(** ** Exceptions *)

Inductive exn (A : Type) : Type :=
| Ok (a : A)
| Raise (e : string).
Arguments Ok {A} a.
Arguments Raise {A} e.

#[global] Instance exn_ret : MRet exn := fun _ a => Ok a.
#[global] Instance exn_bind : MBind exn := fun _ _ f m =>
  match m with
  | Ok a => f a
  | Raise e => Raise e
  end.

(** [try: body except Exception: handler]. *)
Definition try_except {A} (body : exn A) (handler : A) : A :=
  match body with
  | Ok a => a
  | Raise _ => handler
  end.

(** A numeric operand: arithmetic on [None] raises [TypeError]. *)
Definition operand (v : option Q) : exn Q :=
  match v with
  | Some x => Ok x
  | None => Raise "TypeError"
  end.

(** ** Records *)

(** The metrics dict built by [process_ortex_json] and by
    [generate_realistic_mock_data]; both set all six keys. *)
Record Metrics := mkMetrics {
  short_interest : option Q;
  utilization : option Q;
  cost_to_borrow : option Q;
  days_to_cover : option Q;
  data_quality : string;
  source : string
}.

(** A successful record of [get_single_price]. *)
Record PriceRecord := mkPrice {
  p_ticker : string;
  current_price : Q;
  price_change : Q;
  price_change_pct : Q;
  volume : Q
}.

Record Breakdown := mkBreakdown {
  b_short_interest : Z;
  b_utilization : Z;
  b_cost_to_borrow : Z;
  b_days_to_cover : Z;
  b_momentum : Z
}.

Record ScoreResult := mkScore {
  squeeze_score : Z;
  squeeze_type : string;
  risk_factors : list string;
  score_breakdown : option Breakdown
}.

(** ** Scoring engine: [calculate_squeeze_score] *)

Definition classify (total_score : Z) : string :=
  if (80 <=? total_score)%Z then "Extreme Squeeze Risk"
  else if (65 <=? total_score)%Z then "High Squeeze Risk"
  else if (45 <=? total_score)%Z then "Moderate Squeeze Risk"
  else "Low Risk".

Definition tag_if (b : bool) (tag : string) : list string :=
  if b then [tag] else [].

Definition score_body (ortex_data : Metrics) (price_data : PriceRecord)
  : exn ScoreResult :=
  let si := short_interest ortex_data in
  let util := utilization ortex_data in
  let ctb := cost_to_borrow ortex_data in
  let dtc := days_to_cover ortex_data in
  let pct := price_change_pct price_data in
  si ← operand si;
  let si_score := Py.min (si * (12 # 10)) 35 in
  util ← operand util;
  let util_score := Py.min (util * (25 # 100)) 25 in
  ctb ← operand ctb;
  let ctb_score := Py.min (ctb * (8 # 10)) 20 in
  dtc ← operand dtc;
  let dtc_score := Py.min (dtc * (15 # 10)) 15 in
  let momentum_score :=
    if Py.ltb 0 pct then Py.max (pct * (3 # 10)) 0 else 0%Q in
  let total_score :=
    Py.int (si_score + util_score + ctb_score + dtc_score + momentum_score) in
  let risk_factors :=
    (tag_if (Py.ltb 25 si) "EXTREME_SHORT_INTEREST" ++
     tag_if (Py.ltb 90 util) "HIGH_UTILIZATION" ++
     tag_if (Py.ltb 20 ctb) "HIGH_BORROWING_COSTS" ++
     tag_if (Py.ltb 7 dtc) "LONG_COVER_TIME" ++
     tag_if (Py.ltb 15 pct) "STRONG_MOMENTUM")%list in
  mret {| squeeze_score := total_score;
          squeeze_type := classify total_score;
          risk_factors := risk_factors;
          score_breakdown := Some {|
            b_short_interest := Py.int si_score;
            b_utilization := Py.int util_score;
            b_cost_to_borrow := Py.int ctb_score;
            b_days_to_cover := Py.int dtc_score;
            b_momentum := Py.int momentum_score |} |}.

Definition error_score : ScoreResult :=
  {| squeeze_score := 0; squeeze_type := "Error";
     risk_factors := []; score_breakdown := None |}.

Definition calculate_squeeze_score (ortex_data : Metrics)
    (price_data : PriceRecord) : ScoreResult :=
  try_except (score_body ortex_data price_data) error_score.

(** ** JSON values, as [json.loads] builds them *)

Inductive json : Type :=
| JNull
| JBool (b : bool)
| JNum (x : Q)
| JStr (s : string)
| JArr (items : list json)
| JObj (items : list (string * json)).

(** Truthiness of a decoded value ([if v:], [v or default]). *)
Definition json_truthy (v : json) : bool :=
  match v with
  | JNull => false
  | JBool b => b
  | JNum x => Py.truthy x
  | JStr s => negb (String.eqb s EmptyString)
  | JArr items => negb (Nat.eqb (length items) 0)
  | JObj items => negb (Nat.eqb (length items) 0)
  end.

(** [isinstance(value, (int, float))]: numbers, and booleans since [bool]
    is a subclass of [int] ([True] counts as 1, [False] as 0). *)
Definition as_number (v : json) : option Q :=
  match v with
  | JNum x => Some x
  | JBool true => Some 1%Q
  | JBool false => Some 0%Q
  | _ => None
  end.

(** ** Metrics normalisation: [process_ortex_json] *)

Definition set_short_interest (v : option Q) (m : Metrics) : Metrics :=
  mkMetrics v (utilization m) (cost_to_borrow m) (days_to_cover m)
            (data_quality m) (source m).
Definition set_utilization (v : option Q) (m : Metrics) : Metrics :=
  mkMetrics (short_interest m) v (cost_to_borrow m) (days_to_cover m)
            (data_quality m) (source m).
Definition set_cost_to_borrow (v : option Q) (m : Metrics) : Metrics :=
  mkMetrics (short_interest m) (utilization m) v (days_to_cover m)
            (data_quality m) (source m).
Definition set_days_to_cover (v : option Q) (m : Metrics) : Metrics :=
  mkMetrics (short_interest m) (utilization m) (cost_to_borrow m) v
            (data_quality m) (source m).

Definition empty_processed : Metrics :=
  {| short_interest := None; utilization := None;
     cost_to_borrow := None; days_to_cover := None;
     data_quality := "live_ortex"; source := "ortex_api" |}.

(** One iteration of [for key, value in json_data.items()]. *)
Definition scan_item (processed : Metrics) (item : string * json) : Metrics :=
  let '(key, value) := item in
  match as_number value with
  | Some value =>
      let key_lower := Py.lower key in
      if Py.contains "short_interest" key_lower || Py.contains "si" key_lower
      then set_short_interest (Some value) processed
      else if Py.contains "utilization" key_lower
              || Py.contains "util" key_lower
      then set_utilization (Some value) processed
      else if Py.contains "cost_to_borrow" key_lower
              || Py.contains "ctb" key_lower
      then set_cost_to_borrow (Some value) processed
      else if Py.contains "days_to_cover" key_lower
              || Py.contains "dtc" key_lower
      then set_days_to_cover (Some value) processed
      else processed
  | None => processed
  end.

(** The key-by-key scan of the payload (only when it is a dict). *)
Definition scan_payload (json_data : json) : Metrics :=
  match json_data with
  | JObj items => fold_left scan_item items empty_processed
  | _ => empty_processed
  end.

(** "Fill missing data with estimates". *)
Definition fill_missing (processed : Metrics) : Metrics :=
  if Py.truthy_opt (short_interest processed) then
    match short_interest processed with
    | Some si =>
        let processed :=
          if negb (Py.truthy_opt (utilization processed))
          then set_utilization (Some (Py.min (si * (35 # 10)) 95)) processed
          else processed in
        let processed :=
          if negb (Py.truthy_opt (days_to_cover processed))
          then set_days_to_cover
                 (Some (Py.max (si * (2 # 10)) (8 # 10))) processed
          else processed in
        if negb (Py.truthy_opt (cost_to_borrow processed))
        then set_cost_to_borrow (Some (Py.max (si * (4 # 10)) 1)) processed
        else processed
    | None => processed
    end
  else processed.

Definition process_ortex_json (json_data : json) : Metrics :=
  fill_missing (scan_payload json_data).

(** ** The outside world *)

(** What [urllib.request.urlopen] does with a metrics request. *)
Inductive http_outcome : Type :=
| HttpRaised
    (* urlopen raised: network error, timeout, HTTP error status *)
| HttpResponse (code : Z) (content_type : string) (body : option string)
    (* getcode(), the Content-Type header (default empty), and the
       UTF-8 decoded body, None when read() or decode() raises *).

(** The [meta] object of a quote chart, with the defaults of
    [meta.get(..., 0)] already applied. *)
Record QuoteMeta := mkMeta {
  regularMarketPrice : Q;
  previousClose : Q;
  regularMarketVolume : Q
}.

Record World := mkWorld {
  (* the metrics source, by URL and value of the Ortex-Api-Key header *)
  ortex_http : string -> json -> http_outcome;
  (* the quote source by URL: None when the request raises or the payload
     has no usable chart result *)
  yahoo_http : string -> option QuoteMeta;
  (* json.loads: None when it raises JSONDecodeError *)
  json_loads : string -> option json;
  (* hash() on strings, fixed within a process *)
  py_hash : string -> Z;
  (* the random module: generator states, seed(n) and random() *)
  rng : Type;
  rng_seed : Z -> rng;
  rng_random : rng -> Q * rng;
  (* iteration order of set(l) *)
  set_iter : list string -> list string;
  (* os.environ.get('ORTEX_API_KEY', None) *)
  environ_ortex_key : json
}.

(** [list(set(l))] has the elements of [l], each once, in some order. *)
Definition set_iter_spec (w : World) : Prop :=
  ∀ l : list string,
    NoDup (set_iter w l) ∧ ∀ x, x ∈ set_iter w l ↔ x ∈ l.

(** ** Effects: the request log and the global generator state *)

Record State (w : World) := mkState {
  net_log : list string;
  rng_state : rng w
}.
Arguments mkState {w} _ _.
Arguments net_log {w} _.
Arguments rng_state {w} _.

Definition M (w : World) (A : Type) : Type := State w -> A * State w.

#[global] Instance M_ret (w : World) : MRet (M w) := fun _ a s => (a, s).
#[global] Instance M_bind (w : World) : MBind (M w) := fun _ _ f m s =>
  let '(a, s') := m s in f a s'.

Definition log_request {w} (url : string) : M w unit :=
  fun s => (tt, mkState (net_log s ++ [url])%list (rng_state s)).

Definition random_seed {w} (n : Z) : M w unit :=
  fun s => (tt, mkState (net_log s) (rng_seed w n)).

Definition random_random {w} : M w Q :=
  fun s => let '(x, g) := rng_random w (rng_state s) in
           (x, mkState (net_log s) g).

(** [random.uniform(a, b)] is [a + (b - a) * random()]. *)
Definition random_uniform {w} (a b : Q) : M w Q :=
  x ← random_random; mret (a + (b - a) * x)%Q.

(** ** Metrics fetcher: [get_fast_ortex_data] *)

Definition working_endpoints (ticker : string) : list string :=
  [ "https://api.ortex.com/api/v1/stock/nasdaq/" +:+ ticker
      +:+ "/short_interest";
    "https://api.ortex.com/api/v1/stock/nyse/" +:+ ticker
      +:+ "/short_interest" ].

(** The body of the [try] for one URL, after the request was made:
    [Ok (Some m)] is the [return], [Ok None] falls out of the [with] block
    or takes the inner [continue]. *)
Definition read_response (w : World) (resp : http_outcome)
  : exn (option Metrics) :=
  match resp with
  | HttpRaised => Raise "URLError"
  | HttpResponse code content_type body =>
      if (code =? 200)%Z then
        if Py.contains "application/json" content_type then
          data ← match body with
                 | Some data => Ok data
                 | None => Raise "UnicodeDecodeError"
                 end;
          match json_loads w data with
          | Some json_data => Ok (Some (process_ortex_json json_data))
          | None => Ok None
          end
        else Ok None
      else Ok None
  end.

(** One iteration of [for url in working_endpoints]. *)
Definition try_endpoint {w} (url : string) (ortex_key : json)
  : M w (option Metrics) :=
  log_request url;;
  mret (try_except (read_response w (ortex_http w url ortex_key)) None).

Fixpoint try_endpoints {w} (urls : list string) (ortex_key : json)
  : M w (option Metrics) :=
  match urls with
  | [] => mret None
  | url :: urls' =>
      r ← try_endpoint url ortex_key;
      match r with
      | Some m => mret (Some m)
      | None => try_endpoints urls' ortex_key
      end
  end.

Definition get_fast_ortex_data {w} (ticker : string) (ortex_key : json)
  : M w (option Metrics) :=
  if negb (json_truthy ortex_key) then mret None
  else try_endpoints (working_endpoints ticker) ortex_key.

(** ** Ticker universe: [handler.__init__] *)

(** The dict literal, in insertion order. *)
Definition ticker_universe : list (string * list string) :=
  [ ("top_meme_stocks",
     ["GME"; "AMC"; "BBBY"; "SAVA"; "VXRT"; "CLOV"; "SPRT"; "IRNT";
      "DWAC"; "PHUN"; "PROG"; "ATER"; "BBIG"; "MULN"; "EXPR"; "KOSS"]);
    ("high_short_interest",
     ["BYND"; "PTON"; "ROKU"; "UPST"; "AFRM"; "HOOD"; "COIN"; "RIVN";
      "LCID"; "NKLA"; "PLUG"; "BLNK"; "QS"; "GOEV"; "RIDE"; "WKHS"]);
    ("biotech_squeeze",
     ["BIIB"; "GILD"; "REGN"; "BMRN"; "ALNY"; "SRPT"; "IONS"; "ARWR";
      "EDIT"; "CRSP"; "NTLA"; "BEAM"; "BLUE"; "FOLD"; "RARE"; "KRYS"]);
    ("small_cap_movers",
     ["SPCE"; "DKNG"; "PENN"; "FUBO"; "WISH"; "RBLX"; "PLTR"; "SNOW";
      "CRWD"; "OKTA"; "DDOG"; "NET"; "FSLY"; "ESTC"; "ZM"; "DOCN"]);
    ("large_cap_samples",
     ["AAPL"; "TSLA"; "META"; "NFLX"; "NVDA"; "GOOGL"; "AMZN"; "MSFT"]) ].

(** [d.get(key)] on an insertion-ordered dict with distinct keys. *)
Fixpoint dict_get {V} (d : list (string * V)) (key : string) : option V :=
  match d with
  | [] => None
  | (k, v) :: d' => if String.eqb k key then Some v else dict_get d' key
  end.

(** [for category, tickers in d.items(): out.extend(tickers)]. *)
Definition extend_all (d : list (string * list string)) : list string :=
  fold_left (fun out item => out ++ item.2)%list d [].

(** [[x for x in l if not (x in seen or seen.add(x))]]. *)
Fixpoint dedup_seen (seen : gset string) (l : list string) : list string :=
  match l with
  | [] => []
  | x :: l' =>
      if decide (x ∈ seen) then dedup_seen seen l'
      else x :: dedup_seen ({[x]} ∪ seen) l'
  end.

Definition master_ticker_list : list string :=
  dedup_seen ∅ (extend_all ticker_universe).

Definition max_safe_batch_size : Z := 15.

(** ** Synthetic metrics: [generate_realistic_mock_data] *)

Record Profile := mkProfile { si : Q; util : Q; ctb : Q; dtc : Q }.

Definition known_profiles : list (string * Profile) :=
  [ ("GME", mkProfile (224 # 10) (892 # 10) (128 # 10) (41 # 10));
    ("AMC", mkProfile (187 # 10) (821 # 10) (89 # 10) (38 # 10));
    ("SAVA", mkProfile (352 # 10) (951 # 10) (458 # 10) (123 # 10));
    ("VXRT", mkProfile (289 # 10) (876 # 10) (182 # 10) (87 # 10));
    ("BBBY", mkProfile (421 # 10) (982 # 10) (785 # 10) (158 # 10));
    ("BYND", mkProfile (315 # 10) (917 # 10) (253 # 10) (92 # 10));
    ("PTON", mkProfile (268 # 10) (845 # 10) (157 # 10) (68 # 10)) ].

(** [ticker in self.ticker_universe.get(category, [])]. *)
Definition in_category (ticker category : string) : bool :=
  bool_decide (ticker ∈ default [] (dict_get ticker_universe category)).

(** The three [random.uniform] ranges of a ticker's category. *)
Definition category_ranges (ticker : string) : (Q * Q) * (Q * Q) * (Q * Q) :=
  if in_category ticker "top_meme_stocks"
  then ((15, 35), (75, 95), (10, 40))%Q
  else if in_category ticker "biotech_squeeze"
  then ((20, 40), (80, 98), (15, 60))%Q
  else if in_category ticker "large_cap_samples"
  then ((1, 6), (20, 50), (5 # 10, 3))%Q
  else ((8, 25), (50, 85), (3, 20))%Q.

(** The profile chosen for one ticker of the loop. *)
Definition mock_profile {w} (ticker : string) : M w Profile :=
  match dict_get known_profiles ticker with
  | Some profile => mret profile
  | None =>
      random_seed (py_hash w ticker `mod` 10000)%Z;;
      let '(si_r, util_r, ctb_r) := category_ranges ticker in
      si_base ← random_uniform si_r.1 si_r.2;
      util_base ← random_uniform util_r.1 util_r.2;
      ctb_base ← random_uniform ctb_r.1 ctb_r.2;
      k ← random_uniform (2 # 10) (5 # 10);
      mret {| si := Py.round si_base 1;
              util := Py.round util_base 1;
              ctb := Py.round ctb_base 1;
              dtc := Py.round (si_base * k) 1 |}
  end.

Definition mock_record (profile : Profile) : Metrics :=
  {| short_interest := Some (si profile);
     utilization := Some (util profile);
     cost_to_borrow := Some (ctb profile);
     days_to_cover := Some (dtc profile);
     data_quality := "realistic_estimate";
     source := "enhanced_modeling" |}.

Fixpoint mock_loop {w} (tickers : list string)
    (mock_data : gmap string Metrics) : M w (gmap string Metrics) :=
  match tickers with
  | [] => mret mock_data
  | ticker :: tickers' =>
      profile ← mock_profile ticker;
      mock_loop tickers' (<[ticker := mock_record profile]> mock_data)
  end.

Definition generate_realistic_mock_data {w} (tickers : list string)
  : M w (gmap string Metrics) :=
  mock_loop tickers ∅.

(** ** Price fetcher: [get_yahoo_price_data] *)

Definition quote_url (ticker : string) : string :=
  "https://query1.finance.yahoo.com/v8/finance/chart/" +:+ ticker.

(** The success record of [get_single_price]. *)
Definition price_record (ticker : string) (meta : QuoteMeta) : PriceRecord :=
  let current_price := regularMarketPrice meta in
  let previous_close := previousClose meta in
  let price_change :=
    if Py.truthy previous_close then (current_price - previous_close)%Q
    else 0%Q in
  let price_change_pct :=
    if Py.truthy previous_close
    then (price_change / previous_close * 100)%Q else 0%Q in
  {| p_ticker := ticker;
     current_price := Py.round current_price 2;
     price_change := Py.round price_change 2;
     price_change_pct := Py.round price_change_pct 2;
     volume := regularMarketVolume meta |}.

(** One request per ticker, logged in submission order; only successful
    records are stored, under the record's ticker.  The thread pool only
    changes the order in which the records arrive, which the dict does not
    keep; a request that does not finish in time is a failed request of
    the world. *)
Fixpoint price_loop {w} (tickers : list string)
    (price_data : gmap string PriceRecord) : M w (gmap string PriceRecord) :=
  match tickers with
  | [] => mret price_data
  | ticker :: tickers' =>
      log_request (quote_url ticker);;
      match yahoo_http w (quote_url ticker) with
      | Some meta =>
          price_loop tickers'
            (<[ticker := price_record ticker meta]> price_data)
      | None => price_loop tickers' price_data
      end
  end.

Definition get_yahoo_price_data {w} (tickers : list string)
  : M w (gmap string PriceRecord) :=
  price_loop tickers ∅.

(** ** Scan orchestrator: [perform_production_scan] *)

(** The [filters] dict of a scan request, typed as documented:
    [{categories?: [string], max_tickers?: int, min_score?: int}]. *)
Record Filters := mkFilters {
  categories : option (list string);
  max_tickers : option Z;
  min_score : option Z
}.

(** [if filters:] holds for a dict with at least one key. *)
Definition filters_truthy (filters : option Filters) : bool :=
  match filters with
  | None => false
  | Some f =>
      bool_decide (is_Some (categories f))
      || bool_decide (is_Some (max_tickers f))
      || bool_decide (is_Some (min_score f))
  end.

(** The loop over [filters['categories']]. *)
Definition filtered_tickers (cats : list string) : list string :=
  fold_left
    (fun out category =>
       match dict_get ticker_universe category with
       | Some tickers => (out ++ tickers)%list
       | None => out
       end)
    cats [].

(** [scan_tickers] after the category filter, before it is cut to the
    batch size. *)
Definition scan_tickers_for (w : World) (filters : option Filters)
  : list string :=
  let scan_tickers := master_ticker_list in
  if filters_truthy filters then
    match filters ≫= categories with
    | Some (c :: cs) => set_iter w (filtered_tickers (c :: cs))
    | _ => scan_tickers
    end
  else scan_tickers.

(** [scan_tickers] as passed to the price fetcher. *)
Definition scan_batch (w : World) (filters : option Filters) : list string :=
  let scan_tickers := scan_tickers_for w filters in
  if filters_truthy filters then
    let max_tickers :=
      Z.min (default 10%Z (filters ≫= max_tickers)) max_safe_batch_size in
    Py.slice_to scan_tickers max_tickers
  else Py.slice_to scan_tickers 10.

Record ScanResult := mkResult {
  r_ticker : string;
  r_squeeze_score : Z;
  r_squeeze_type : string;
  r_current_price : Q;
  r_price_change : Q;
  r_price_change_pct : Q;
  r_volume : Q;
  r_ortex_data : Metrics;
  r_risk_factors : list string;
  r_data_quality : string
}.



(** [d[key]] raises [KeyError] on a missing key. *)
Definition getitem {V} (d : gmap string V) (key : string) : exn V :=
  match d !! key with
  | Some v => Ok v
  | None => Raise "KeyError"
  end.



(** The result dict of one ticker. *)
Definition merge_result (ticker : string) (ortex : Metrics)
    (price : PriceRecord) : ScanResult :=
  let squeeze_metrics := calculate_squeeze_score ortex price in
  {| r_ticker := ticker;
     r_squeeze_score := squeeze_score squeeze_metrics;
     r_squeeze_type := squeeze_type squeeze_metrics;
     r_current_price := current_price price;
     r_price_change := price_change price;
     r_price_change_pct := price_change_pct price;
     r_volume := volume price;
     r_ortex_data := ortex;
     r_risk_factors := risk_factors squeeze_metrics;
     r_data_quality := data_quality ortex |}.


(** [l.sort(key=key, reverse=True)]: Python's built-in sort is stable, also
    with [reverse=True]; a stable insertion sort stands for it (the stable
    descending arrangement of a list is unique, see
    [stable_descending_unique]). *)
Fixpoint insert_desc {A} (key : A -> Z) (x : A) (l : list A) : list A :=
  match l with
  | [] => [x]
  | y :: l' =>
      if (key x <? key y)%Z then y :: insert_desc key x l'
      else x :: y :: l'
  end.

Definition sort_reverse {A} (key : A -> Z) (l : list A) : list A :=
  foldr (insert_desc key) [] l.

(** The RANK step on the merged results. *)
Definition rank (results : list ScanResult) : list ScanResult :=
  sort_reverse r_squeeze_score results.


(** ** Single-ticker endpoint: [handle_single_scan] *)

Record SingleResult := mkSingle {
  sr_result : ScanResult;
  sr_score_breakdown : option Breakdown   (* None for the empty dict *)
}.

Record ResponseBody := mkBody {
  success : bool;
  error : option string;
  result : option SingleResult
}.

(** What [send_json_response(data, status)] sends. *)
Record Response := mkResponse {
  status : Z;
  body : ResponseBody
}.

Definition error_response (message : string) (status : Z) : Response :=
  {| status := status;
     body := {| success := false; error := Some message; result := None |} |}.

(** [data.get(key, default)]: only a dict has [get]. *)
Definition py_get (data : json) (key : string) (default_value : json)
  : exn json :=
  match data with
  | JObj items => Ok (default default_value (dict_get items key))
  | _ => Raise "AttributeError"
  end.

(** [value.upper()]: only a string has [upper]. *)
Definition py_upper (value : json) : exn string :=
  match value with
  | JStr s => Ok (Py.upper s)
  | _ => Raise "AttributeError"
  end.

(** The request decoding at the head of the [try] block: the decoded body
    ([post_data] raises when the Content-Length header or the bytes are
    malformed), the ticker and the credential. *)
Definition decode_single_scan (w : World) (post_data : exn string)
  : exn (string * json) :=
  post_data ← post_data;
  data ← (if String.eqb post_data EmptyString then Ok (JObj [])
          else match json_loads w post_data with
               | Some data => Ok data
               | None => Raise "JSONDecodeError"
               end);
  ticker ← py_get data "ticker" (JStr EmptyString);
  ticker ← py_upper ticker;
  ortex_key ← py_get data "ortex_key" JNull;
  Ok (ticker,
      if json_truthy ortex_key then ortex_key else environ_ortex_key w).

Definition handle_single_scan {w} (post_data : exn string) : M w Response :=
  match decode_single_scan w post_data with
  | Raise e => mret (error_response e 500)
  | Ok (ticker, ortex_key) =>
      if String.eqb ticker EmptyString then
        mret (error_response "No ticker provided" 400)
      else
        price_data ← get_yahoo_price_data [ticker];
        match price_data !! ticker with
        | None => mret (error_response "Failed to get price data" 400)
        | Some price =>
            ortex_data ←
              (if json_truthy ortex_key
               then get_fast_ortex_data ticker ortex_key
               else mret None);
            ortex_data ←
              match ortex_data with
              | Some m => mret (Ok m)
              | None =>
                  mock_data ← generate_realistic_mock_data [ticker];
                  mret (getitem mock_data ticker)
              end;
            match ortex_data with
            | Raise e => mret (error_response e 500)
            | Ok ortex_data =>
                let squeeze_metrics :=
                  calculate_squeeze_score ortex_data price in
                mret {| status := 200;
                        body := {|
                          success := true;
                          error := None;
                          result := Some {|
                            sr_result := merge_result ticker ortex_data price;
                            sr_score_breakdown :=
                              score_breakdown squeeze_metrics |} |} |}
            end
        end
  end.

(** ** A sample world *)

Module Sample.

(** A toy generator: the state is a counter, [random()] is its last
    digit in tenths. *)
Definition toy_random (g : Z) : Q * Z :=
  (((g `mod` 10)%Z # 10)%Q, (g + 3)%Z).

(** A toy hash: the length of the string. *)
Definition toy_hash (s : string) : Z := Z.of_nat (String.length s).

(** A toy decoder that knows four bodies (written with single quotes). *)
Definition toy_loads (s : string) : option json :=
  if String.eqb s "{}" then Some (JObj [])
  else if String.eqb s "{'ticker': 'gme'}"
  then Some (JObj [("ticker", JStr "gme")])
  else if String.eqb s "{'ticker': 'zzzz'}"
  then Some (JObj [("ticker", JStr "zzzz")])
  else if String.eqb s "{'short_interest': 30}"
  then Some (JObj [("short_interest", JNum 30)])
  else None.

(** The metrics source knows GME on its second endpoint only and answers
    AMC with a web page. *)
Definition toy_ortex (url : string) (key : json) : http_outcome :=
  if String.eqb url
       "https://api.ortex.com/api/v1/stock/nyse/GME/short_interest"
  then HttpResponse 200 "application/json; charset=utf-8"
         (Some "{'short_interest': 30}")
  else if String.eqb url
       "https://api.ortex.com/api/v1/stock/nasdaq/AMC/short_interest"
  then HttpResponse 200 "text/html" (Some "<html></html>")
  else if String.eqb url
       "https://api.ortex.com/api/v1/stock/nyse/AMC/short_interest"
  then HttpResponse 500 "application/json" (Some "{}")
  else HttpRaised.

(** The quote source knows GME and AMC. *)
Definition toy_yahoo (url : string) : option QuoteMeta :=
  if String.eqb url "https://query1.finance.yahoo.com/v8/finance/chart/GME"
  then Some (mkMeta 25 20 1000)
  else if String.eqb url
       "https://query1.finance.yahoo.com/v8/finance/chart/AMC"
  then Some (mkMeta 5 5 2000)
  else None.

(** Sets iterate in order of first insertion. *)
Definition world : World :=
  {| ortex_http := toy_ortex; yahoo_http := toy_yahoo;
     json_loads := toy_loads; py_hash := toy_hash;
     rng := Z; rng_seed := fun n => n; rng_random := toy_random;
     set_iter := dedup_seen ∅; environ_ortex_key := JNull |}.

(** Sets iterate in reverse order of first insertion. *)
Definition reversed_world : World :=
  {| ortex_http := toy_ortex; yahoo_http := toy_yahoo;
     json_loads := toy_loads; py_hash := toy_hash;
     rng := Z; rng_seed := fun n => n; rng_random := toy_random;
     set_iter := fun l => reverse (dedup_seen ∅ l);
     environ_ortex_key := JNull |}.

Definition start : State world := @mkState world [] 7%Z.

(** A later state of the same process: requests were made and the
    generator was used. *)
Definition later : State world :=
  @mkState world ["https://query1.finance.yahoo.com/v8/finance/chart/AMC"]
    4242%Z.

End Sample.

(** ** Specification vocabulary *)

(** Truncation toward zero, from the library's floor and ceiling. *)
Definition Qtrunc (x : Q) : Z :=
  if Qle_bool 0 x then Qfloor x else Qceiling x.

(** The momentum component as the specification words it. *)
Definition momentum_of (pct : Q) : Q :=
  if Qlt_le_dec 0 pct then (pct * (3 # 10))%Q else 0%Q.

(** The sum of the five components as the specification words it. *)
Definition component_sum (si util ctb dtc pct : Q) : Q :=
  (Qmin (si * (12 # 10)) 35 + Qmin (util * (25 # 100)) 25
   + Qmin (ctb * (8 # 10)) 20 + Qmin (dtc * (15 # 10)) 15
   + momentum_of pct)%Q.

(** A field that the back-fill regards as missing, and one it keeps. *)
Definition missing_or_zero (v : option Q) : Prop :=
  v = None \/ exists x, v = Some x /\ (x == 0)%Q.

Definition present_nonzero (v : option Q) : Prop :=
  exists x, v = Some x /\ ~ (x == 0)%Q.

(** A field holding a number equal to the given one. *)
Definition holds (v : option Q) (x : Q) : Prop :=
  exists y, v = Some y /\ (y == x)%Q.

(** Descending order of the keys along a list. *)
Definition descending {A} (key : A -> Z) (l : list A) : Prop :=
  StronglySorted (fun a b => (key b <= key a)%Z) l.

(** The elements with a given key, in their order of appearance. *)
Definition with_key {A} (key : A -> Z) (k : Z) (l : list A) : list A :=
  filter (fun a => key a = k) l.

(** The state after the given requests were issued. *)
Definition logged {w} (s : State w) (urls : list string) : State w :=
  mkState (net_log s ++ urls)%list (rng_state s).

(** A candidate endpoint answers 200 with a JSON content type and a body
    that decodes and parses; [m] is the normalized payload. *)
Definition endpoint_succeeds (w : World) (url : string) (key : json)
    (m : Metrics) : Prop :=
  exists content_type data json_data,
    ortex_http w url key = HttpResponse 200 content_type (Some data)
    /\ Py.contains "application/json" content_type = true
    /\ json_loads w data = Some json_data
    /\ m = process_ortex_json json_data.

(** A candidate endpoint fails: the request raises (network error, timeout,
    HTTP error), the status is not 200, the content type is not JSON, the
    body cannot be read, or it does not parse. *)
Definition endpoint_fails (w : World) (url : string) (key : json) : Prop :=
  match ortex_http w url key with
  | HttpRaised => True
  | HttpResponse code content_type body =>
      code <> 200%Z
      \/ Py.contains "application/json" content_type = false
      \/ body = None
      \/ exists data, body = Some data /\ json_loads w data = None
  end.

(** The profile of a ticker when the generator starts from a given
    state of the random module. *)
Definition profile_from (w : World) (g : rng w) (ticker : string) : Profile :=
  (mock_profile ticker (@mkState w [] g)).1.

(** The record was fetched for the ticker: one of its candidate endpoints
    succeeds with it. *)
Definition fetched (w : World) (key : json) (ticker : string) (m : Metrics)
  : Prop :=
  exists url, url ∈ working_endpoints ticker /\ endpoint_succeeds w url key m.

(** The request body decodes to a dict with the given items: it is empty
    (and stands for the empty dict) or parses to a JSON object. *)
Definition request_dict (w : World) (post_data : string)
    (items : list (string * json)) : Prop :=
  (post_data = EmptyString /\ items = [])
  \/ (post_data <> EmptyString /\ json_loads w post_data = Some (JObj items)).


(** A key that the normalisation maps to one of the four metrics. *)
Definition recognized_key (key : string) : bool :=
  let k := Py.lower key in
  Py.contains "short_interest" k || Py.contains "si" k
  || Py.contains "utilization" k || Py.contains "util" k
  || Py.contains "cost_to_borrow" k || Py.contains "ctb" k
  || Py.contains "days_to_cover" k || Py.contains "dtc" k.

(** An item of the payload that the normalisation ignores: its value is
    not a number or its key is not recognized. *)
Definition ignored_item (item : string * json) : Prop :=
  as_number item.2 = None \/ recognized_key item.1 = false.

(** [random()] returns a number of the unit interval. *)
Definition unit_random (w : World) : Prop :=
  forall g : rng w, (0 <= (rng_random w g).1 <= 1)%Q.

(** [lo <= x <= hi]. *)
Definition between (lo hi x : Q) : Prop := (lo <= x)%Q /\ (x <= hi)%Q.


(** * Properties *)

(** ** Python arithmetic *)

Lemma ltb_lt (a b : Q) : Py.ltb a b = true <-> (a < b)%Q.
Proof.
  unfold Py.ltb. rewrite negb_true_iff, <- not_true_iff_false, Qle_bool_iff.
  split; [apply Qnot_le_lt | apply Qlt_not_le].
Qed.

Lemma ltb_ge (a b : Q) : Py.ltb a b = false <-> (b <= a)%Q.
Proof.
  unfold Py.ltb. rewrite negb_false_iff. apply Qle_bool_iff.
Qed.

Lemma min_Qmin (a b : Q) : (Py.min a b == Qmin a b)%Q.
Proof.
  unfold Py.min. destruct (Py.ltb b a) eqn:E.
  - apply ltb_lt in E. symmetry. apply Q.min_r. by apply Qlt_le_weak.
  - apply ltb_ge in E. symmetry. by apply Q.min_l.
Qed.

Lemma max_Qmax (a b : Q) : (Py.max a b == Qmax a b)%Q.
Proof.
  unfold Py.max. destruct (Py.ltb a b) eqn:E.
  - apply ltb_lt in E. symmetry. apply Q.max_r. by apply Qlt_le_weak.
  - apply ltb_ge in E. symmetry. by apply Q.max_l.
Qed.

(** [int()] truncates: floor on the non-negative side, ceiling below. *)
Lemma int_Qtrunc (x : Q) : Py.int x = Qtrunc x.
Proof.
  unfold Py.int, Qtrunc, Qceiling, Qfloor, Qle_bool.
  destruct x as [n d]; simpl. rewrite Z.mul_1_r, Z.mul_0_l.
  destruct (Z.leb_spec 0 n) as [Hn | Hn].
  - by apply Z.quot_div_nonneg.
  - rewrite <- (Z.opp_involutive n) at 1.
    rewrite Z.quot_opp_l by lia.
    by rewrite Z.quot_div_nonneg by lia.
Qed.

#[global] Instance Qtrunc_proper : Proper (Qeq ==> eq) Qtrunc.
Proof.
  intros x y Hxy. unfold Qtrunc.
  assert (Qle_bool 0 x = Qle_bool 0 y) as ->.
  { apply eq_true_iff_eq. rewrite !Qle_bool_iff. by rewrite Hxy. }
  destruct (Qle_bool 0 y); [by apply Qfloor_comp | by apply Qceiling_comp].
Qed.

Lemma int_proper (x y : Q) : (x == y)%Q -> Py.int x = Py.int y.
Proof. intros H. rewrite !int_Qtrunc. by rewrite H. Qed.

Lemma momentum_score_spec (pct : Q) :
  ((if Py.ltb 0 pct then Py.max (pct * (3 # 10)) 0 else 0) == momentum_of pct)%Q.
Proof.
  unfold momentum_of. destruct (Py.ltb 0 pct) eqn:E.
  - apply ltb_lt in E. destruct (Qlt_le_dec 0 pct) as [_ | Hle].
    + rewrite max_Qmax. apply Q.max_l.
      apply Qmult_le_0_compat; [by apply Qlt_le_weak | done].
    + exfalso. by apply (Qlt_not_le _ _ E).
  - apply ltb_ge in E. destruct (Qlt_le_dec 0 pct) as [Hlt | _]; [| done].
    exfalso. by apply (Qlt_not_le _ _ Hlt).
Qed.

(** ** Scoring engine *)


(** On a record with its four metrics set the body of the [try] block
    returns, and its total is the truncated component sum. *)
Lemma score_body_complete (m : Metrics) (p : PriceRecord) (si util ctb dtc : Q) :
  short_interest m = Some si -> utilization m = Some util ->
  cost_to_borrow m = Some ctb -> days_to_cover m = Some dtc ->
  exists r, score_body m p = Ok r
    /\ squeeze_score r
       = Qtrunc (component_sum si util ctb dtc (price_change_pct p))
    /\ squeeze_type r = classify (squeeze_score r)
    /\ risk_factors r
       = (tag_if (Py.ltb 25 si) "EXTREME_SHORT_INTEREST" ++
          tag_if (Py.ltb 90 util) "HIGH_UTILIZATION" ++
          tag_if (Py.ltb 20 ctb) "HIGH_BORROWING_COSTS" ++
          tag_if (Py.ltb 7 dtc) "LONG_COVER_TIME" ++
          tag_if (Py.ltb 15 (price_change_pct p)) "STRONG_MOMENTUM")%list
    /\ score_breakdown r
       = Some {| b_short_interest := Qtrunc (Qmin (si * (12 # 10)) 35);
                 b_utilization := Qtrunc (Qmin (util * (25 # 100)) 25);
                 b_cost_to_borrow := Qtrunc (Qmin (ctb * (8 # 10)) 20);
                 b_days_to_cover := Qtrunc (Qmin (dtc * (15 # 10)) 15);
                 b_momentum := Qtrunc (momentum_of (price_change_pct p)) |}.
Proof.
  intros Hsi Hutil Hctb Hdtc. unfold score_body.
  rewrite Hsi, Hutil, Hctb, Hdtc. simpl.
  eexists. split; [reflexivity |]. simpl.
  assert (Hsum : Py.int
      (Py.min (si * (12 # 10)) 35 + Py.min (util * (25 # 100)) 25
       + Py.min (ctb * (8 # 10)) 20 + Py.min (dtc * (15 # 10)) 15
       + (if Py.ltb 0 (price_change_pct p)
          then Py.max (price_change_pct p * (3 # 10)) 0 else 0))
    = Qtrunc (component_sum si util ctb dtc (price_change_pct p))).
  { rewrite int_Qtrunc. apply Qtrunc_proper. unfold component_sum.
    by rewrite !min_Qmin, momentum_score_spec. }
  repeat split; try done.
  rewrite !int_Qtrunc.
  by rewrite !min_Qmin, momentum_score_spec.
Qed.

(** A record with a metric left at [None] takes the [except] branch. *)
Lemma score_incomplete (m : Metrics) (p : PriceRecord) :
  short_interest m = None \/ utilization m = None
  \/ cost_to_borrow m = None \/ days_to_cover m = None ->
  calculate_squeeze_score m p = error_score.
Proof.
  unfold calculate_squeeze_score, score_body.
  destruct (short_interest m), (utilization m), (cost_to_borrow m),
    (days_to_cover m); simpl; intros H; try done;
    destruct H as [H | [H | [H | H]]]; done.
Qed.










(** ** Metrics normalisation *)

Lemma truthy_nonzero (x : Q) : Py.truthy x = true <-> ~ (x == 0)%Q.
Proof.
  unfold Py.truthy. rewrite negb_true_iff, <- not_true_iff_false.
  by rewrite Qeq_bool_iff.
Qed.

Lemma truthy_opt_false (v : option Q) :
  Py.truthy_opt v = false <-> missing_or_zero v.
Proof.
  unfold missing_or_zero. destruct v as [x |]; simpl.
  - unfold Py.truthy. rewrite negb_false_iff, Qeq_bool_iff. split.
    + intros H. right. by exists x.
    + intros [H | (y & [= ->] & H)]; done.
  - split; [by left | done].
Qed.

Lemma truthy_opt_true (v : option Q) :
  Py.truthy_opt v = true <-> present_nonzero v.
Proof.
  unfold present_nonzero. destruct v as [x |]; simpl.
  - rewrite truthy_nonzero. split.
    + intros H. by exists x.
    + by intros (y & [= ->] & H).
  - split; [done | by intros (y & H & _)].
Qed.

(** The back-fill, field by field. *)
Lemma fill_missing_spec (m : Metrics) :
  (Py.truthy_opt (short_interest m) = false -> fill_missing m = m)
  /\ (forall si, short_interest m = Some si -> Py.truthy si = true ->
        fill_missing m =
        {| short_interest := Some si;
           utilization :=
             if Py.truthy_opt (utilization m) then utilization m
             else Some (Py.min (si * (35 # 10)) 95);
           cost_to_borrow :=
             if Py.truthy_opt (cost_to_borrow m) then cost_to_borrow m
             else Some (Py.max (si * (4 # 10)) 1);
           days_to_cover :=
             if Py.truthy_opt (days_to_cover m) then days_to_cover m
             else Some (Py.max (si * (2 # 10)) (8 # 10));
           data_quality := data_quality m;
           source := source m |}).
Proof.
  destruct m as [s u c d q o]. unfold fill_missing. simpl. split.
  - by intros ->.
  - intros si -> Hsi. simpl. rewrite Hsi.
    destruct (Py.truthy_opt u); simpl;
      destruct (Py.truthy_opt d); simpl;
      destruct (Py.truthy_opt c); done.
Qed.

Lemma scan_item_tags (m : Metrics) (item : string * json) :
  data_quality (scan_item m item) = data_quality m
  /\ source (scan_item m item) = source m.
Proof.
  destruct item as [key value]. unfold scan_item.
  destruct (as_number value); [| done].
  repeat case_match; done.
Qed.

Lemma scan_payload_tags (json_data : json) :
  data_quality (scan_payload json_data) = "live_ortex"
  /\ source (scan_payload json_data) = "ortex_api".
Proof.
  assert (forall items m,
    data_quality (fold_left scan_item items m) = data_quality m
    /\ source (fold_left scan_item items m) = source m) as Hfold.
  { induction items as [| item items IH]; intros m; simpl; [done |].
    destruct (IH (scan_item m item)) as [-> ->]. apply scan_item_tags. }
  destruct json_data; simpl; solve [done | apply Hfold].
Qed.

Lemma fill_missing_tags (m : Metrics) :
  data_quality (fill_missing m) = data_quality m
  /\ source (fill_missing m) = source m
  /\ short_interest (fill_missing m) = short_interest m.
Proof.
  destruct (fill_missing_spec m) as [Hoff Hon].
  destruct (Py.truthy_opt (short_interest m)) eqn:E.
  - destruct (short_interest m) as [si |] eqn:Esi; [| done].
    by rewrite (Hon si eq_refl E).
  - by rewrite Hoff.
Qed.

Lemma process_ortex_json_tags (json_data : json) :
  data_quality (process_ortex_json json_data) = "live_ortex"
  /\ source (process_ortex_json json_data) = "ortex_api".
Proof.
  unfold process_ortex_json.
  destruct (fill_missing_tags (scan_payload json_data)) as (-> & -> & _).
  apply scan_payload_tags.
Qed.

Lemma holds_min (a b : Q) : holds (Some (Py.min a b)) (Qmin a b).
Proof. eexists. split; [done | apply min_Qmin]. Qed.

Lemma holds_max (a b : Q) : holds (Some (Py.max a b)) (Qmax a b).
Proof. eexists. split; [done | apply max_Qmax]. Qed.

(** C5, as amended: for every payload whose normalized record has a
    non-zero shortInterest, a utilization that is missing or zero is set to
    [min(shortInterest*3.5, 95)], a daysToCover that is missing or zero to
    [max(shortInterest*0.2, 0.8)] and a costToBorrow that is missing or zero
    to [max(shortInterest*0.4, 1.0)]; a derived field that is present and
    non-zero is kept; when shortInterest is missing or zero nothing is
    back-filled; the record is always tagged [live_ortex] from
    [ortex_api]. *)
Theorem backfill_rule (json_data : json) :
  let parsed := scan_payload json_data in
  let r := process_ortex_json json_data in
  (data_quality r = "live_ortex" /\ source r = "ortex_api")
  /\ (missing_or_zero (short_interest parsed) -> r = parsed)
  /\ (forall si : Q,
        short_interest parsed = Some si -> ~ (si == 0)%Q ->
        short_interest r = Some si
        /\ (missing_or_zero (utilization parsed) ->
            holds (utilization r) (Qmin (si * (35 # 10)) 95))
        /\ (missing_or_zero (days_to_cover parsed) ->
            holds (days_to_cover r) (Qmax (si * (2 # 10)) (8 # 10)))
        /\ (missing_or_zero (cost_to_borrow parsed) ->
            holds (cost_to_borrow r) (Qmax (si * (4 # 10)) 1))
        /\ (present_nonzero (utilization parsed) ->
            utilization r = utilization parsed)
        /\ (present_nonzero (days_to_cover parsed) ->
            days_to_cover r = days_to_cover parsed)
        /\ (present_nonzero (cost_to_borrow parsed) ->
            cost_to_borrow r = cost_to_borrow parsed)).
Proof.
  intros parsed r.
  destruct (fill_missing_spec parsed) as [Hoff Hon].
  split; [apply process_ortex_json_tags |]. split.
  - intros H%truthy_opt_false. by apply Hoff.
  - intros si Hsi Hnz%truthy_nonzero.
    unfold r, process_ortex_json. fold parsed. rewrite (Hon si Hsi Hnz). simpl.
    split_and!; try done.
    + intros ->%truthy_opt_false. apply holds_min.
    + intros ->%truthy_opt_false. apply holds_max.
    + intros ->%truthy_opt_false. apply holds_max.
    + by intros ->%truthy_opt_true.
    + by intros ->%truthy_opt_true.
    + by intros ->%truthy_opt_true.
Qed.

(** C5 as stated fails twice: with a short interest of 0 present and the
    utilization missing nothing is filled in, and a utilization of 0 that
    the payload supplied is overwritten. *)
Lemma backfill_rule_counterexample :
  let zero := JObj [("short_interest", JNum 0)] in
  let supplied := JObj [("short_interest", JNum 10); ("utilization", JNum 0)] in
  (short_interest (scan_payload zero) = Some 0%Q
   /\ utilization (scan_payload zero) = None
   /\ utilization (process_ortex_json zero) = None)
  /\ (short_interest (scan_payload supplied) = Some 10%Q
      /\ utilization (scan_payload supplied) = Some 0%Q
      /\ utilization (process_ortex_json supplied) = Some (350 # 10)%Q).
Proof. vm_compute. repeat split. Qed.

Lemma backfill_rule_witness :
  let json_data := JObj [("short_interest", JNum 30); ("dtc", JNum 4)] in
  holds (utilization (process_ortex_json json_data)) 95
  /\ days_to_cover (process_ortex_json json_data) = Some 4%Q.
Proof.
  intros json_data.
  destruct (backfill_rule json_data) as (_ & _ & H).
  destruct (H 30%Q eq_refl) as (_ & Hutil & _ & _ & _ & Hdtc & _).
  { intros E. discriminate E. }
  split.
  - destruct Hutil as (y & Hy & Heq); [by left |].
    exists y. split; [exact Hy |]. rewrite Heq. reflexivity.
  - apply Hdtc. exists 4%Q. split; [reflexivity |]. intros E. discriminate E.
Defined.

(** C10: presence is judged by truthiness.  A parsed shortInterest equal
    to 0 disables the back-fill (the record stays as parsed, derived fields
    that were unset stay unset); with a non-zero shortInterest, a parsed
    utilization, daysToCover or costToBorrow equal to 0 is overwritten by
    its back-fill formula although the payload supplied it. *)
Theorem backfill_truthiness (json_data : json) :
  let parsed := scan_payload json_data in
  let r := process_ortex_json json_data in
  (forall si : Q,
     short_interest parsed = Some si -> (si == 0)%Q ->
     r = parsed
     /\ (utilization parsed = None -> utilization r = None)
     /\ (days_to_cover parsed = None -> days_to_cover r = None)
     /\ (cost_to_borrow parsed = None -> cost_to_borrow r = None))
  /\ (forall si x : Q,
        short_interest parsed = Some si -> ~ (si == 0)%Q -> (x == 0)%Q ->
        (utilization parsed = Some x ->
         holds (utilization r) (Qmin (si * (35 # 10)) 95))
        /\ (days_to_cover parsed = Some x ->
            holds (days_to_cover r) (Qmax (si * (2 # 10)) (8 # 10)))
        /\ (cost_to_borrow parsed = Some x ->
            holds (cost_to_borrow r) (Qmax (si * (4 # 10)) 1))).
Proof.
  intros parsed r.
  destruct (fill_missing_spec parsed) as [Hoff Hon]. split.
  - intros si Hsi Hz.
    assert (r = parsed) as ->.
    { apply Hoff, truthy_opt_false. right. by exists si. }
    done.
  - intros si x Hsi Hnz%truthy_nonzero Hx.
    assert (Py.truthy x = false) as Hfalse.
    { unfold Py.truthy. by rewrite negb_false_iff, Qeq_bool_iff. }
    unfold r, process_ortex_json. fold parsed. rewrite (Hon si Hsi Hnz). simpl.
    split_and!; intros ->; simpl; rewrite Hfalse;
      [apply holds_min | apply holds_max | apply holds_max].
Qed.

Lemma backfill_truthiness_witness :
  let zero := JObj [("si", JNum 0)] in
  let supplied := JObj [("si", JNum 10); ("util", JNum 0)] in
  utilization (process_ortex_json zero) = None
  /\ holds (utilization (process_ortex_json supplied)) 35.
Proof.
  intros zero supplied. split.
  - destruct (proj1 (backfill_truthiness zero) 0%Q eq_refl) as (_ & H & _);
      [reflexivity | by apply H].
  - destruct (proj2 (backfill_truthiness supplied) 10%Q 0%Q eq_refl)
      as ((y & Hy & Heq) & _); [intros E; discriminate E | reflexivity.. |].
    exists y. split; [exact Hy |]. rewrite Heq. reflexivity.
Defined.

(** ** Ranking *)

Section Sorting.
Context {A : Type} (key : A -> Z).

Lemma insert_desc_perm (x : A) (l : list A) :
  insert_desc key x l ≡ₚ x :: l.
Proof.
  induction l as [| y l IH]; simpl; [done |].
  destruct (key x <? key y)%Z; [| done].
  rewrite IH. apply Permutation_swap.
Qed.

Lemma sort_reverse_perm (l : list A) : sort_reverse key l ≡ₚ l.
Proof.
  induction l as [| x l IH]; simpl; [done |].
  by rewrite insert_desc_perm, IH.
Qed.

Lemma insert_desc_descending (x : A) (l : list A) :
  descending key l -> descending key (insert_desc key x l).
Proof.
  unfold descending. induction 1 as [| y l Hl IH Hy]; simpl.
  - repeat constructor.
  - destruct (Z.ltb_spec (key x) (key y)) as [Hlt | Hge].
    + constructor; [exact IH |].
      rewrite insert_desc_perm. constructor; [lia | exact Hy].
    + constructor; [by constructor |].
      constructor; [exact Hge |].
      eapply Forall_impl; [exact Hy |]. simpl. intros z Hz. lia.
Qed.

Lemma sort_reverse_descending (l : list A) :
  descending key (sort_reverse key l).
Proof.
  induction l as [| x l IH]; simpl; [constructor |].
  by apply insert_desc_descending.
Qed.

(** An inserted element goes in front of the elements of its own key. *)
Lemma with_key_insert_desc (k : Z) (x : A) (l : list A) :
  with_key key k (insert_desc key x l) = with_key key k (x :: l).
Proof.
  unfold with_key. induction l as [| y l IH]; simpl; [done |].
  destruct (Z.ltb_spec (key x) (key y)) as [Hlt | Hge]; [| done].
  rewrite (filter_cons _ y), IH, !(filter_cons _ x), (filter_cons _ y).
  repeat case_decide; first [done | lia].
Qed.

Lemma sort_reverse_stable (k : Z) (l : list A) :
  with_key key k (sort_reverse key l) = with_key key k l.
Proof.
  induction l as [| x l IH]; simpl; [done |].
  rewrite with_key_insert_desc. unfold with_key in *.
  by rewrite !(filter_cons _ x), IH.
Qed.

Lemma descending_head_max (x y : A) (l : list A) :
  descending key (x :: l) -> y ∈ x :: l -> (key y <= key x)%Z.
Proof.
  intros Hs Hy. apply StronglySorted_inv in Hs as [_ Hall].
  apply elem_of_cons in Hy as [-> | Hy]; [lia |].
  by apply (proj1 (Forall_forall _ _) Hall).
Qed.

Lemma with_key_elem (x : A) (l : list A) :
  x ∈ l <-> x ∈ with_key key (key x) l.
Proof.
  unfold with_key. rewrite list_elem_of_filter.
  split; [by intros Hx | by intros [_ Hx]].
Qed.

(** Two descending lists with the same elements of every key, in the same
    order, are equal: the stable descending arrangement of a list is
    unique, so any stable sort returns what [sort_reverse] returns. *)
Lemma stable_descending_unique (l1 l2 : list A) :
  descending key l1 -> descending key l2 ->
  (forall k, with_key key k l1 = with_key key k l2) ->
  l1 = l2.
Proof.
  revert l2. induction l1 as [| a l1 IH]; intros l2 Hs1 Hs2 Heq.
  - destruct l2 as [| b l2]; [done |].
    specialize (Heq (key b)). unfold with_key in Heq.
    by rewrite filter_cons_True in Heq.
  - destruct l2 as [| b l2].
    { specialize (Heq (key a)). unfold with_key in Heq.
      by rewrite filter_cons_True in Heq. }
    assert (a ∈ b :: l2) as Ha.
    { apply (proj2 (with_key_elem a (b :: l2))). rewrite <- Heq.
      apply (proj1 (with_key_elem a (a :: l1))). by left. }
    assert (b ∈ a :: l1) as Hb.
    { apply (proj2 (with_key_elem b (a :: l1))). rewrite Heq.
      apply (proj1 (with_key_elem b (b :: l2))). by left. }
    pose proof (descending_head_max _ _ _ Hs2 Ha) as Hab.
    pose proof (descending_head_max _ _ _ Hs1 Hb) as Hba.
    assert (key a = key b) as Hkey by lia.
    pose proof (Heq (key a)) as Hhead. unfold with_key in Hhead.
    rewrite !filter_cons_True in Hhead by done.
    injection Hhead as -> Htail.
    f_equal. apply IH.
    + by apply StronglySorted_inv in Hs1 as [? _].
    + by apply StronglySorted_inv in Hs2 as [? _].
    + intros k. specialize (Heq k). unfold with_key in *.
      rewrite !(filter_cons _ b) in Heq. by case_decide; simplify_eq.
Qed.

End Sorting.

(** C3: for every list of merged results, RANK returns a permutation of it
    in descending order of squeeze score, and results of equal score keep
    their relative order; results with scores 30, 90, 60 come out in the
    order 90, 60, 30. *)
Theorem rank_stable_descending (merged : list ScanResult) :
  rank merged ≡ₚ merged
  /\ descending r_squeeze_score (rank merged)
  /\ (forall k : Z,
        with_key r_squeeze_score k (rank merged)
        = with_key r_squeeze_score k merged)
  /\ (forall a b c : ScanResult,
        merged = [a; b; c] ->
        r_squeeze_score a = 30%Z -> r_squeeze_score b = 90%Z ->
        r_squeeze_score c = 60%Z ->
        rank merged = [b; c; a]).
Proof.
  unfold rank. split_and!.
  - apply sort_reverse_perm.
  - apply sort_reverse_descending.
  - intros k. apply sort_reverse_stable.
  - intros a b c -> Ha Hb Hc. destruct a, b, c. simpl in *. by subst.
Qed.

Lemma rank_stable_descending_witness :
  let ortex := mock_record (mkProfile 10 50 5 2) in
  let res (ticker : string) (score : Z) :=
    mkResult ticker score "Low Risk" 10 0 0 1000 ortex [] "realistic_estimate" in
  rank [res "AAPL" 30%Z; res "GME" 90%Z; res "AMC" 60%Z]
  = [res "GME" 90%Z; res "AMC" 60%Z; res "AAPL" 30%Z].
Proof.
  intros ortex res.
  apply (proj2 (proj2 (proj2 (rank_stable_descending _)))
           (res "AAPL" 30%Z) (res "GME" 90%Z) (res "AMC" 60%Z));
    reflexivity.
Defined.

(** ** Metrics fetcher *)

Section Fetch.
Context (w : World).
Implicit Types (s : State w) (key : json) (url : string).

Lemma logged_nil s : logged s [] = s.
Proof. destruct s. unfold logged. simpl. by rewrite app_nil_r. Qed.

Lemma logged_app s (l1 l2 : list string) :
  logged (logged s l1) l2 = logged s (l1 ++ l2).
Proof. unfold logged. simpl. by rewrite app_assoc. Qed.

(** Every request either succeeds or fails in one of the listed ways. *)
Lemma endpoint_cases url key :
  endpoint_fails w url key \/ exists m, endpoint_succeeds w url key m.
Proof.
  unfold endpoint_fails, endpoint_succeeds.
  destruct (ortex_http w url key) as [| code ct [data |]]; [by left | | ].
  - destruct (decide (code = 200%Z)) as [-> | Hcode]; [| by left; left].
    destruct (Py.contains "application/json" ct) eqn:Hct;
      [| by left; right; left].
    destruct (json_loads w data) as [j |] eqn:Hj.
    + right. by exists (process_ortex_json j), ct, data, j.
    + left. do 3 right. by exists data.
  - left. do 2 right. by left.
Qed.

Lemma try_endpoint_succeeds url key m s :
  endpoint_succeeds w url key m ->
  try_endpoint url key s = (Some m, logged s [url]).
Proof.
  intros (ct & data & j & Hresp & Hct & Hj & ->).
  unfold try_endpoint, read_response, mbind, M_bind, mret, M_ret. simpl.
  rewrite Hresp. simpl. rewrite Hct. simpl. by rewrite Hj.
Qed.

Lemma try_endpoint_fails url key s :
  endpoint_fails w url key ->
  try_endpoint url key s = (None, logged s [url]).
Proof.
  unfold endpoint_fails, try_endpoint, read_response, mbind, M_bind, mret,
    M_ret. simpl.
  destruct (ortex_http w url key) as [| code ct body]; [done |].
  intros [Hcode | [Hct | [-> | (data & -> & Hj)]]].
  - by apply Z.eqb_neq in Hcode as ->.
  - rewrite Hct. by destruct (code =? 200)%Z.
  - by destruct (code =? 200)%Z, (Py.contains "application/json" ct).
  - simpl. rewrite Hj.
    by destruct (code =? 200)%Z, (Py.contains "application/json" ct).
Qed.



End Fetch.




(** ** Ticker universe *)

Lemma dedup_seen_elem (seen : gset string) (l : list string) (x : string) :
  x ∈ dedup_seen seen l <-> x ∈ l /\ x ∉ seen.
Proof.
  revert seen. induction l as [| y l IH]; intros seen; simpl.
  - split; [by intros ?%not_elem_of_nil | by intros [?%not_elem_of_nil _]].
  - destruct (decide (y ∈ seen)) as [Hy | Hy].
    + rewrite IH, elem_of_cons. split; [intros [? ?]; auto |].
      intros [[-> | Hx] Hseen]; [done | auto].
    + rewrite !elem_of_cons, IH. split.
      * intros [-> | [Hx Hseen]]; [auto |].
        split; [auto |]. set_solver.
      * intros [[-> | Hx] Hseen]; [auto |].
        destruct (decide (x = y)) as [-> | Hne]; [auto |].
        right. split; [done |]. set_solver.
Qed.

Lemma dedup_seen_NoDup (seen : gset string) (l : list string) :
  NoDup (dedup_seen seen l).
Proof.
  revert seen. induction l as [| y l IH]; intros seen; simpl.
  - constructor.
  - destruct (decide (y ∈ seen)); [apply IH |].
    apply NoDup_cons_2; [| apply IH].
    rewrite dedup_seen_elem. set_solver.
Qed.

(** The comprehension only drops elements: the order is kept. *)
Lemma dedup_seen_sublist (seen : gset string) (l : list string) :
  dedup_seen seen l `sublist_of` l.
Proof.
  revert seen. induction l as [| y l IH]; intros seen; simpl; [constructor |].
  destruct (decide (y ∈ seen)); [apply sublist_cons | apply sublist_skip];
    apply IH.
Qed.

(** A list without repetitions is returned as it is. *)
Lemma dedup_seen_id (seen : gset string) (l : list string) :
  NoDup l -> (forall x, x ∈ l -> x ∉ seen) -> dedup_seen seen l = l.
Proof.
  intros Hnd. revert seen.
  induction Hnd as [| y l Hy Hnd IH]; intros seen Hseen; simpl; [done |].
  destruct (decide (y ∈ seen)) as [Hin | _].
  - exfalso. apply (Hseen y); [by left | done].
  - f_equal. apply IH. intros x Hx. specialize (Hseen x).
    assert (x <> y) by (by intros ->). set_solver.
Qed.

Lemma filtered_tickers_elem (cats : list string) (x : string) :
  x ∈ filtered_tickers cats <->
  exists category tickers,
    category ∈ cats /\ dict_get ticker_universe category = Some tickers
    /\ x ∈ tickers.
Proof.
  unfold filtered_tickers. generalize ticker_universe. intros u.
  set (step := fun (out : list string) (category : string) =>
    match dict_get u category with
    | Some tickers => (out ++ tickers)%list
    | None => out
    end).
  assert (forall cats acc,
    x ∈ fold_left step cats acc <->
    x ∈ acc \/ exists category tickers,
      category ∈ cats /\ dict_get u category = Some tickers
      /\ x ∈ tickers) as Hfold.
  { clear cats. induction cats as [| c cats IH]; intros acc; cbn [fold_left].
    - split; [auto |]. intros [H | (c & ts & Hc%not_elem_of_nil & _)]; done.
    - rewrite IH. unfold step. split.
      + intros [Hacc | (c' & ts & Hc' & Hget & Hx)].
        * destruct (dict_get u c) as [ts |] eqn:Hget; [| auto].
          apply elem_of_app in Hacc as [Hacc | Hx]; [auto |].
          right. exists c, ts. split; [by left | done].
        * right. exists c', ts. split; [by right | done].
      + intros [Hacc | (c' & ts & Hc' & Hget & Hx)].
        * left. destruct (dict_get u c); [| done].
          apply elem_of_app. auto.
        * apply elem_of_cons in Hc' as [-> | Hc'].
          -- left. rewrite Hget. apply elem_of_app. auto.
          -- right. by exists c', ts. }
  rewrite Hfold. split; [| auto].
  intros [H%not_elem_of_nil | H]; done.
Qed.

Lemma master_ticker_list_flat :
  master_ticker_list = extend_all ticker_universe.
Proof. vm_compute. reflexivity. Qed.

Lemma sample_set_iter_spec : set_iter_spec Sample.world.
Proof.
  intros l. simpl. split; [apply dedup_seen_NoDup |].
  intros x. rewrite dedup_seen_elem. set_solver.
Qed.

Lemma reversed_set_iter_spec : set_iter_spec Sample.reversed_world.
Proof.
  intros l. simpl. split.
  - rewrite reverse_Permutation. apply dedup_seen_NoDup.
  - intros x. rewrite elem_of_reverse, dedup_seen_elem. set_solver.
Qed.

Lemma scan_tickers_for_all (w : World) (filters : option Filters) :
  filters ≫= categories = None \/ filters ≫= categories = Some [] ->
  scan_tickers_for w filters = master_ticker_list.
Proof.
  unfold scan_tickers_for. intros [-> | ->]; by destruct (filters_truthy _).
Qed.

Lemma scan_tickers_for_categories (w : World) (filters : option Filters)
    (cats : list string) :
  filters ≫= categories = Some cats -> cats <> [] ->
  scan_tickers_for w filters = set_iter w (filtered_tickers cats).
Proof.
  intros Hcats Hne. unfold scan_tickers_for. rewrite Hcats.
  destruct filters as [f |]; [| done]. simpl in Hcats.
  unfold filters_truthy. rewrite Hcats. simpl.
  by destruct cats.
Qed.

Lemma slice_to_nonneg {A} (l : list A) (n : Z) :
  (0 <= n)%Z -> Py.slice_to l n = take (Z.to_nat n) l.
Proof. unfold Py.slice_to. intros Hn. by apply Z.leb_le in Hn as ->. Qed.

Lemma slice_to_prefix {A} (l : list A) (n : Z) : Py.slice_to l n `prefix_of` l.
Proof. unfold Py.slice_to. destruct (0 <=? n)%Z; apply prefix_take. Qed.

(** C8, as amended: the flat ticker list has no duplicate and keeps the
    insertion order of the category tables (it only drops repetitions; the
    tables as they are have none, so it is their concatenation); with no
    category selected the scan starts from the flat list, with a non-empty
    list of categories from a list without duplicates that holds exactly
    the tickers of the selected categories; the batch that is scanned is
    the leading part of that list: its first 10 tickers when [max_tickers]
    is absent, its first [min(max_tickers, 15)] when a non-negative
    [max_tickers] is given. *)
Theorem ticker_selection (w : World) (filters : option Filters) :
  set_iter_spec w ->
  (NoDup master_ticker_list
   /\ master_ticker_list `sublist_of` extend_all ticker_universe
   /\ (forall x, x ∈ master_ticker_list <-> x ∈ extend_all ticker_universe)
   /\ master_ticker_list = extend_all ticker_universe)
  /\ (filters ≫= categories = None \/ filters ≫= categories = Some [] ->
      scan_tickers_for w filters = master_ticker_list)
  /\ (forall cats : list string,
        filters ≫= categories = Some cats -> cats <> [] ->
        NoDup (scan_tickers_for w filters)
        /\ forall x,
             x ∈ scan_tickers_for w filters <->
             exists category tickers,
               category ∈ cats
               /\ dict_get ticker_universe category = Some tickers
               /\ x ∈ tickers)
  /\ scan_batch w filters `prefix_of` scan_tickers_for w filters
  /\ (filters ≫= max_tickers = None ->
      scan_batch w filters = take 10 (scan_tickers_for w filters))
  /\ (forall n : Z,
        filters ≫= max_tickers = Some n -> (0 <= n)%Z ->
        scan_batch w filters
        = take (Z.to_nat (Z.min n 15)) (scan_tickers_for w filters)).
Proof.
  intros Hset. split_and!.
  - apply dedup_seen_NoDup.
  - apply dedup_seen_sublist.
  - intros x. unfold master_ticker_list. rewrite dedup_seen_elem. set_solver.
  - apply master_ticker_list_flat.
  - apply scan_tickers_for_all.
  - intros cats Hcats Hne.
    rewrite (scan_tickers_for_categories w filters cats Hcats Hne).
    destruct (Hset (filtered_tickers cats)) as [Hnd Helem].
    split; [exact Hnd |]. intros x.
    by rewrite Helem, filtered_tickers_elem.
  - unfold scan_batch. destruct (filters_truthy filters); apply slice_to_prefix.
  - intros Hmax. unfold scan_batch. rewrite Hmax. simpl.
    by destruct (filters_truthy filters).
  - intros n Hmax Hn. unfold scan_batch. rewrite Hmax. simpl.
    assert (filters_truthy filters = true) as ->.
    { destruct filters as [f |]; [| done]. simpl in Hmax.
      unfold filters_truthy. rewrite Hmax. simpl.
      by rewrite orb_true_r. }
    apply slice_to_nonneg. unfold max_safe_batch_size. lia.
Qed.

(** C8 as stated fails on the batch: with no category selected the scan
    takes the first 10 of the 72 tickers, not the full universe.  With a
    category selected the order is the set's: in a world whose sets
    iterate backwards the large caps come out in reverse table order. *)
Lemma ticker_selection_counterexample :
  (scan_tickers_for Sample.world None = master_ticker_list
   /\ scan_batch Sample.world None
      = ["GME"; "AMC"; "BBBY"; "SAVA"; "VXRT"; "CLOV"; "SPRT"; "IRNT";
         "DWAC"; "PHUN"]
   /\ length master_ticker_list = 72%nat)
  /\ (dict_get ticker_universe "large_cap_samples"
      = Some ["AAPL"; "TSLA"; "META"; "NFLX"; "NVDA"; "GOOGL"; "AMZN"; "MSFT"]
      /\ scan_tickers_for Sample.reversed_world
           (Some (mkFilters (Some ["large_cap_samples"]) None None))
         = ["MSFT"; "AMZN"; "GOOGL"; "NVDA"; "NFLX"; "META"; "TSLA"; "AAPL"]).
Proof. vm_compute. repeat split. Qed.

Lemma ticker_selection_witness :
  scan_tickers_for Sample.world (Some (mkFilters None (Some 5%Z) None))
  = master_ticker_list
  /\ scan_batch Sample.world (Some (mkFilters None (Some 5%Z) None))
     = take 5 master_ticker_list
  /\ NoDup (scan_tickers_for Sample.world
              (Some (mkFilters (Some ["large_cap_samples"; "large_cap_samples"])
                               None None))).
Proof.
  pose proof (ticker_selection Sample.world
                (Some (mkFilters None (Some 5%Z) None)) sample_set_iter_spec)
    as (_ & Hall & _ & _ & _ & Hcut).
  assert (scan_tickers_for Sample.world (Some (mkFilters None (Some 5%Z) None))
          = master_ticker_list) as Hfull.
  { apply Hall. left. reflexivity. }
  split_and!.
  - exact Hfull.
  - rewrite (Hcut 5%Z eq_refl ltac:(lia)). by rewrite Hfull.
  - apply (proj1 (proj2 (proj2 (ticker_selection Sample.world _
                                  sample_set_iter_spec)))
             ["large_cap_samples"; "large_cap_samples"]);
      [reflexivity | discriminate].
Defined.

(** ** Synthetic metrics *)

Section Mock.
Context (w : World).
Implicit Types (s : State w) (ticker : string).

(** The profile of a ticker does not depend on the state the generator is
    called in, and no request is made. *)
Lemma mock_profile_run ticker s (g : rng w) :
  exists g', mock_profile ticker s
             = (profile_from w g ticker, mkState (net_log s) g').
Proof.
  unfold profile_from, mock_profile.
  destruct (dict_get known_profiles ticker) as [profile |].
  - exists (rng_state s). by destruct s.
  - destruct (category_ranges ticker) as [[si_r util_r] ctb_r].
    unfold mbind, M_bind, mret, M_ret, random_seed, random_uniform,
      random_random, mbind, M_bind, mret, M_ret. simpl.
    repeat (match goal with
            | |- context [rng_random w ?g] =>
                destruct (rng_random w g) as [? ?]; simpl
            end).
    by eexists.
Qed.

Lemma mock_loop_run (tickers : list string) (acc : gmap string Metrics) s
    (g : rng w) :
  exists g',
    (mock_loop tickers acc s).2 = mkState (net_log s) g'
    /\ forall t,
         (mock_loop tickers acc s).1 !! t
         = if decide (t ∈ tickers)
           then Some (mock_record (profile_from w g t))
           else acc !! t.
Proof.
  revert acc s. induction tickers as [| ticker tickers IH]; intros acc s.
  - exists (rng_state s). simpl. split; [by destruct s |].
    done.
  - simpl. unfold mbind, M_bind.
    destruct (mock_profile_run ticker s g) as (g1 & ->).
    destruct (IH (<[ticker := mock_record (profile_from w g ticker)]> acc)
                 (mkState (net_log s) g1)) as (g2 & Hstate & Hlookup).
    exists g2. split; [exact Hstate |].
    intros t. rewrite Hlookup.
    destruct (decide (t ∈ tickers)) as [Hin | Hnin].
    + by rewrite decide_True by (by right).
    + destruct (decide (t = ticker)) as [-> | Hne].
      * rewrite decide_True by (by left). by rewrite lookup_insert_eq.
      * rewrite lookup_insert_ne by done.
        rewrite decide_False; [done |].
        intros [-> | H]%elem_of_cons; done.
Qed.

Lemma generate_lookup (tickers : list string) s (g : rng w) (t : string) :
  (generate_realistic_mock_data tickers s).1 !! t
  = if decide (t ∈ tickers)
    then Some (mock_record (profile_from w g t))
    else None.
Proof.
  unfold generate_realistic_mock_data.
  destruct (mock_loop_run tickers ∅ s g) as (g' & _ & ->).
  by rewrite lookup_empty.
Qed.

Lemma generate_log (tickers : list string) s :
  net_log (generate_realistic_mock_data tickers s).2 = net_log s.
Proof.
  unfold generate_realistic_mock_data.
  by destruct (mock_loop_run tickers ∅ s (rng_state s)) as (g' & -> & _).
Qed.

Lemma profile_from_known ticker (g : rng w) (profile : Profile) :
  dict_get known_profiles ticker = Some profile ->
  profile_from w g ticker = profile.
Proof. unfold profile_from, mock_profile. by intros ->. Qed.

End Mock.

(** C7: with the hash and the generator fixed, two invocations of the
    synthetic generator return the same records whatever state the random
    module is in; the record of a ticker does not depend on the other
    tickers of the batch; a ticker of the known-profile table gets that
    profile verbatim; every synthetic record is tagged
    [realistic_estimate] from [enhanced_modeling]. *)
Theorem synthetic_deterministic (w : World) (tickers : list string)
    (s1 s2 : State w) :
  (generate_realistic_mock_data tickers s1).1
  = (generate_realistic_mock_data tickers s2).1
  /\ (forall t : string,
        t ∈ tickers ->
        (generate_realistic_mock_data tickers s1).1 !! t
        = (generate_realistic_mock_data [t] s2).1 !! t)
  /\ (forall (t : string) (profile : Profile),
        t ∈ tickers -> dict_get known_profiles t = Some profile ->
        (generate_realistic_mock_data tickers s1).1 !! t
        = Some {| short_interest := Some (si profile);
                  utilization := Some (util profile);
                  cost_to_borrow := Some (ctb profile);
                  days_to_cover := Some (dtc profile);
                  data_quality := "realistic_estimate";
                  source := "enhanced_modeling" |})
  /\ (forall (t : string) (m : Metrics),
        (generate_realistic_mock_data tickers s1).1 !! t = Some m ->
        data_quality m = "realistic_estimate"
        /\ source m = "enhanced_modeling").
Proof.
  set (g := rng_state s1). split_and!.
  - apply map_eq. intros t.
    by rewrite (generate_lookup w tickers s1 g), (generate_lookup w tickers s2 g).
  - intros t Ht.
    rewrite (generate_lookup w tickers s1 g), (generate_lookup w [t] s2 g).
    rewrite !decide_True; [done | by left | done].
  - intros t profile Ht Hknown.
    rewrite (generate_lookup w tickers s1 g), decide_True by done.
    by rewrite (profile_from_known w t g profile Hknown).
  - intros t m. rewrite (generate_lookup w tickers s1 g).
    case_decide; [| done]. by intros [= <-].
Qed.

Lemma synthetic_deterministic_witness :
  (generate_realistic_mock_data ["GME"; "ZZZZ"] Sample.start).1 !! "ZZZZ"
  = (generate_realistic_mock_data ["ZZZZ"] Sample.later).1 !! "ZZZZ"
  /\ (generate_realistic_mock_data ["GME"; "ZZZZ"] Sample.start).1 !! "GME"
     = Some (mock_record (mkProfile (224 # 10) (892 # 10) (128 # 10) (41 # 10))).
Proof.
  destruct (synthetic_deterministic Sample.world ["GME"; "ZZZZ"]
              Sample.start Sample.later) as (_ & Hone & Hknown & _).
  split.
  - apply Hone. apply elem_of_cons. right. apply list_elem_of_here.
  - apply (Hknown "GME" (mkProfile (224 # 10) (892 # 10) (128 # 10) (41 # 10))).
    + apply list_elem_of_here.
    + reflexivity.
Defined.

(** The sample generator gives ZZZZ a profile of the default range. *)
Example sample_profile_ZZZZ :
  profile_from Sample.world 7%Z "ZZZZ"
  = mkProfile (148 # 10) (745 # 10) (30 # 10) (43 # 10).
Proof. vm_compute. reflexivity. Qed.

(** ** Scan orchestrator *)

Section Scan.
Context (w : World).
Implicit Types (s : State w) (key : json) (ticker : string).

Lemma try_endpoints_Some (urls : list string) key s s' (m : Metrics) :
  try_endpoints urls key s = (Some m, s') ->
  exists url, url ∈ urls /\ endpoint_succeeds w url key m.
Proof.
  revert s. induction urls as [| u urls IH]; intros s; simpl.
  - unfold mret, M_ret. by intros [= ].
  - unfold mbind, M_bind.
    destruct (endpoint_cases w u key) as [Hfail | [m' Hok]].
    + rewrite (try_endpoint_fails w u key s Hfail). intros Hrest.
      destruct (IH _ Hrest) as (url & Hin & Hurl).
      exists url. split; [by right | done].
    + rewrite (try_endpoint_succeeds w u key m' s Hok).
      unfold mret, M_ret. intros [= <- _].
      exists u. split; [by left | done].
Qed.

Lemma get_fast_ortex_data_Some ticker key s s' (m : Metrics) :
  get_fast_ortex_data ticker key s = (Some m, s') ->
  json_truthy key = true /\ fetched w key ticker m.
Proof.
  unfold get_fast_ortex_data, fetched.
  destruct (json_truthy key); unfold negb; cbv beta iota.
  - intros H. split; [done |]. by eapply try_endpoints_Some.
  - unfold mret, M_ret. by intros [= ].
Qed.

Lemma fetched_live key ticker (m : Metrics) :
  fetched w key ticker m -> data_quality m = "live_ortex".
Proof.
  intros (url & _ & ct & data & j & _ & _ & _ & ->).
  apply process_ortex_json_tags.
Qed.





End Scan.




(** ** Single-ticker endpoint *)

Lemma upper_empty (t : string) : Py.upper t = EmptyString <-> t = EmptyString.
Proof. by destruct t. Qed.

Lemma decode_single_scan_dict (w : World) (post_data : string)
    (items : list (string * json)) (t : string) :
  request_dict w post_data items ->
  default (JStr EmptyString) (dict_get items "ticker") = JStr t ->
  exists ortex_key,
    decode_single_scan w (Ok post_data) = Ok (Py.upper t, ortex_key).
Proof.
  intros Hbody Hticker. unfold decode_single_scan, mbind, exn_bind.
  assert ((if String.eqb post_data EmptyString then Ok (JObj [])
           else match json_loads w post_data with
                | Some data => Ok data
                | None => Raise "JSONDecodeError"
                end) = Ok (JObj items)) as ->.
  { destruct Hbody as [[-> ->] | [Hne ->]]; [done |].
    by apply String.eqb_neq in Hne as ->. }
  unfold py_get. cbv beta iota. rewrite Hticker. by eexists.
Qed.



(** * Further properties *)

(** ** Scoring engine: bounds, monotonicity, breakdown *)

Lemma Qtrunc_le (x y : Q) : (x <= y)%Q -> (Qtrunc x <= Qtrunc y)%Z.
Proof.
  intros Hxy. unfold Qtrunc.
  destruct (Qle_bool 0 x) eqn:Hx, (Qle_bool 0 y) eqn:Hy.
  - by apply Qfloor_resp_le.
  - apply Qle_bool_iff in Hx.
    assert (Qle_bool 0 y = true) as Hy'
      by (apply Qle_bool_iff; by apply Qle_trans with x).
    congruence.
  - apply Qle_bool_iff in Hy.
    assert (~ (0 <= x)%Q) as Hneg by (rewrite <- Qle_bool_iff; congruence).
    apply Qnot_le_lt in Hneg.
    assert (Qceiling x <= 0)%Z as Hc.
    { rewrite <- (Qceiling_Z 0). apply Qceiling_resp_le. by apply Qlt_le_weak. }
    assert (0 <= Qfloor y)%Z as Hf.
    { rewrite <- (Qfloor_Z 0). by apply Qfloor_resp_le. }
    lia.
  - by apply Qceiling_resp_le.
Qed.


Lemma momentum_of_nonneg (pct : Q) : (0 <= momentum_of pct)%Q.
Proof.
  unfold momentum_of. destruct (Qlt_le_dec 0 pct) as [Hpos | _].
  - apply Qmult_le_0_compat; [by apply Qlt_le_weak | done].
  - apply Qle_refl.
Qed.


Lemma momentum_of_nonpos (pct : Q) : (pct <= 0)%Q -> momentum_of pct = 0%Q.
Proof.
  intros Hle. unfold momentum_of.
  destruct (Qlt_le_dec 0 pct) as [Hpos | _]; [| done].
  exfalso. by apply (Qlt_not_le _ _ Hpos).
Qed.


Lemma capped_nonneg (x c cap : Q) :
  (0 <= x)%Q -> (0 <= c)%Q -> (0 <= cap)%Q -> (0 <= Qmin (x * c) cap)%Q.
Proof.
  intros Hx Hc Hcap. apply Q.min_glb; [by apply Qmult_le_0_compat | done].
Qed.


Lemma component_sum_nonneg (si util ctb dtc pct : Q) :
  (0 <= si)%Q -> (0 <= util)%Q -> (0 <= ctb)%Q -> (0 <= dtc)%Q ->
  (0 <= component_sum si util ctb dtc pct)%Q.
Proof.
  intros Hsi Hutil Hctb Hdtc. unfold component_sum.
  replace 0%Q with (0 + 0 + 0 + 0 + 0)%Q by done.
  repeat apply Qplus_le_compat;
    first [apply momentum_of_nonneg | by apply capped_nonneg].
Qed.

Lemma component_sum_cap (si util ctb dtc pct : Q) :
  (pct <= 0)%Q -> (component_sum si util ctb dtc pct <= 95)%Q.
Proof.
  intros Hpct. unfold component_sum. rewrite (momentum_of_nonpos pct Hpct).
  replace 95%Q with (35 + 25 + 20 + 15 + 0)%Q by done.
  repeat apply Qplus_le_compat; first [apply Q.le_min_r | apply Qle_refl].
Qed.








(** X3: the four capped components bound the score: it is at most 95 when
    the price did not rise, at most 95 plus 0.3 times the percentage when
    it rose, whatever the record; it is not negative when the four metrics
    are set and not negative. *)
Theorem score_bounds (m : Metrics) (p : PriceRecord) :
  ((price_change_pct p <= 0)%Q ->
   (squeeze_score (calculate_squeeze_score m p) <= 95)%Z)
  /\ ((0 < price_change_pct p)%Q ->
      (inject_Z (squeeze_score (calculate_squeeze_score m p))
       <= 95 + price_change_pct p * (3 # 10))%Q)
  /\ (forall si util ctb dtc : Q,
        short_interest m = Some si -> utilization m = Some util ->
        cost_to_borrow m = Some ctb -> days_to_cover m = Some dtc ->
        (0 <= si)%Q -> (0 <= util)%Q -> (0 <= ctb)%Q -> (0 <= dtc)%Q ->
        (0 <= squeeze_score (calculate_squeeze_score m p))%Z).
Proof.
  set (pct := price_change_pct p).
  assert (forall si util ctb dtc, short_interest m = Some si ->
            utilization m = Some util -> cost_to_borrow m = Some ctb ->
            days_to_cover m = Some dtc ->
            squeeze_score (calculate_squeeze_score m p)
            = Qtrunc (component_sum si util ctb dtc pct)) as Hscore.
  { intros si util ctb dtc Hsi Hutil Hctb Hdtc.
    destruct (score_body_complete m p si util ctb dtc Hsi Hutil Hctb Hdtc)
      as (r & Hr & Htotal & _).
    unfold calculate_squeeze_score. by rewrite Hr. }
  destruct (short_interest m) as [si |] eqn:Hsi;
    [destruct (utilization m) as [util |] eqn:Hutil;
     [destruct (cost_to_borrow m) as [ctb |] eqn:Hctb;
      [destruct (days_to_cover m) as [dtc |] eqn:Hdtc |] |] |].
  2-5: rewrite (score_incomplete m p) by (rewrite ?Hsi, ?Hutil, ?Hctb, ?Hdtc; auto).
  2-5: (split_and!; [done | | done]; intros Hpos; simpl;
        apply Qle_trans with (95 + 0)%Q; [done |];
        apply Qplus_le_compat; [apply Qle_refl |];
        apply Qmult_le_0_compat; [by apply Qlt_le_weak | done]).
  rewrite (Hscore si util ctb dtc) by done. split_and!.
  - intros Hpct. change 95%Z with (Qtrunc 95).
    by apply Qtrunc_le, component_sum_cap.
  - intros Hpos.
    assert (component_sum si util ctb dtc pct <= 95 + pct * (3 # 10))%Q as Hb.
    { unfold component_sum, momentum_of.
      destruct (Qlt_le_dec 0 pct) as [_ | Hle];
        [| exfalso; by apply (Qlt_not_le _ _ Hpos)].
      replace 95%Q with (35 + 25 + 20 + 15)%Q by done.
      repeat apply Qplus_le_compat; first [apply Q.le_min_r | apply Qle_refl]. }
    unfold Qtrunc. destruct (Qle_bool 0 _) eqn:Hsign.
    + eapply Qle_trans; [apply Qfloor_le | exact Hb].
    + assert (~ (0 <= component_sum si util ctb dtc pct)%Q) as Hneg
        by (rewrite <- Qle_bool_iff; congruence).
      apply Qnot_le_lt, Qlt_le_weak, Qceiling_resp_le in Hneg.
      change (Qceiling 0) with 0%Z in Hneg.
      apply Qle_trans with 0%Q.
      * change 0%Q with (inject_Z 0). rewrite <- Zle_Qle. exact Hneg.
      * apply Qle_trans with (95 + 0)%Q; [done |].
        apply Qplus_le_compat; [apply Qle_refl |].
        apply Qmult_le_0_compat; [by apply Qlt_le_weak | done].
  - intros si0 util0 ctb0 dtc0 [= <-] [= <-] [= <-] [= <-] H1 H2 H3 H4.
    change 0%Z with (Qtrunc 0).
    by apply Qtrunc_le, component_sum_nonneg.
Qed.

Lemma score_bounds_witness :
  (squeeze_score
     (calculate_squeeze_score
        (mkMetrics (Some 421%Q) (Some 982%Q) (Some 785%Q) (Some 158%Q)
                   "live_ortex" "ortex_api")
        (mkPrice "BBBY" 10 0 (-5) 1000)) <= 95)%Z.
Proof. apply (proj1 (score_bounds _ _)). intros E. discriminate E. Defined.




(** ** Metrics normalisation: completeness and unusable payloads *)








Lemma scan_item_ignored (m : Metrics) (item : string * json) :
  ignored_item item -> scan_item m item = m.
Proof.
  destruct item as [key value]. unfold ignored_item, scan_item. simpl.
  intros [-> | Hkey]; [done |].
  destruct (as_number value); [| done].
  unfold recognized_key in Hkey.
  repeat (apply orb_false_iff in Hkey as [Hkey ?]).
  by repeat match goal with H : _ = false |- _ => rewrite H; clear H end.
Qed.

Lemma scan_payload_ignored (items : list (string * json)) :
  Forall ignored_item items -> scan_payload (JObj items) = empty_processed.
Proof.
  intros Hall. simpl. generalize empty_processed.
  induction Hall as [| item items Hitem _ IH]; intros m; simpl; [done |].
  by rewrite scan_item_ignored.
Qed.

(** X6: a payload that is not a JSON object, or an object in which every
    item has a non-numeric value or an unrecognized key, is normalized to
    the record with the four metrics at [None] (still tagged live), and
    scoring that record gives the zeroed "Error" result. *)
Theorem unusable_payload (json_data : json) (p : PriceRecord) :
  (forall items, json_data = JObj items -> Forall ignored_item items) ->
  process_ortex_json json_data = empty_processed
  /\ calculate_squeeze_score (process_ortex_json json_data) p = error_score.
Proof.
  intros Hitems.
  assert (scan_payload json_data = empty_processed) as Hscan.
  { destruct json_data; try done. by apply scan_payload_ignored, Hitems. }
  unfold process_ortex_json. rewrite Hscan. done.
Qed.

Lemma unusable_payload_witness :
  process_ortex_json
    (JObj [("rows", JArr [JNum 30]); ("shortInterest", JNum 30);
           ("utilization", JStr "95")])
  = empty_processed.
Proof.
  assert (forall items,
            JObj [("rows", JArr [JNum 30]); ("shortInterest", JNum 30);
                  ("utilization", JStr "95")] = JObj items ->
            Forall ignored_item items) as Hitems.
  { intros items [= <-].
    repeat (constructor; [first [by left | by right] |]). constructor. }
  apply (proj1 (unusable_payload _ (mkPrice "GME" 25 5 25 1000) Hitems)).
Defined.

(** ** Metrics fetcher: requests made *)

Lemma try_endpoints_run (w : World) (urls : list string) (key : json)
    (s : State w) :
  exists tried,
    tried `prefix_of` urls
    /\ (try_endpoints urls key s).2 = logged s tried
    /\ ((try_endpoints urls key s).1 = None <->
        Forall (fun u => endpoint_fails w u key) urls)
    /\ ((try_endpoints urls key s).1 = None -> tried = urls).
Proof.
  revert s. induction urls as [| u urls IH]; intros s.
  - exists []. simpl. rewrite logged_nil. split_and!; try done.
  - simpl. unfold mbind, M_bind.
    destruct (endpoint_cases w u key) as [Hfail | [m Hok]].
    + rewrite (try_endpoint_fails w u key s Hfail).
      destruct (IH (logged s [u])) as (tried & Hpre & Hstate & Hnone & Hall).
      exists (u :: tried). split_and!.
      * by apply prefix_cons.
      * rewrite Hstate. apply logged_app.
      * rewrite Hnone. split; [by constructor |].
        by intros [_ ?]%Forall_cons.
      * intros H. by rewrite (Hall H).
    + rewrite (try_endpoint_succeeds w u key m s Hok).
      exists [u]. simpl. split_and!; try done.
      * by apply prefix_cons, prefix_nil.
      * split; [done |]. intros [Hfail _]%Forall_cons. exfalso.
        destruct Hok as (ct & data & j & Hresp & Hct & Hj & _).
        unfold endpoint_fails in Hfail. rewrite Hresp in Hfail.
        destruct Hfail as [? | [? | [? | (d & [= <-] & ?)]]]; congruence.
Qed.


(** ** Price fetcher *)




(** ** Rounding and the price record *)

Lemma round_half_even_ge (x : Q) (k : Z) :
  (inject_Z k <= x)%Q -> (k <= Py.round_half_even x)%Z.
Proof.
  intros Hk. apply Qfloor_resp_le in Hk. rewrite Qfloor_Z in Hk.
  unfold Py.round_half_even. repeat case_match; lia.
Qed.

Lemma round_half_even_le (x : Q) (k : Z) :
  (x <= inject_Z k)%Q -> (Py.round_half_even x <= k)%Z.
Proof.
  intros Hk. pose proof (Qfloor_resp_le _ _ Hk) as Hf. rewrite Qfloor_Z in Hf.
  unfold Py.round_half_even.
  destruct (Py.ltb (x - inject_Z (Qfloor x)) (1 # 2)) eqn:Hr; [done |].
  apply ltb_ge in Hr.
  assert (Qfloor x < k)%Z; [| repeat case_match; lia].
  rewrite Zlt_Qlt. lra.
Qed.

Lemma scaled_ge (x : Q) (k : Z) (d : positive) :
  (k # d <= x)%Q -> (inject_Z k <= x * inject_Z (Z.pos d))%Q.
Proof. unfold Qle. simpl. nia. Qed.

Lemma scaled_le (x : Q) (k : Z) (d : positive) :
  (x <= k # d)%Q -> (x * inject_Z (Z.pos d) <= inject_Z k)%Q.
Proof. unfold Qle. simpl. nia. Qed.

(** Rounding to [n] digits does not cross a number with [n] digits. *)
Lemma round_ge (x : Q) (n : positive) (k : Z) :
  (k # 10 ^ n <= x)%Q -> (k # 10 ^ n <= Py.round x n)%Q.
Proof.
  intros Hk%scaled_ge%round_half_even_ge. unfold Py.round, Qle. simpl.
  by apply Z.mul_le_mono_nonneg_r.
Qed.

Lemma round_le (x : Q) (n : positive) (k : Z) :
  (x <= k # 10 ^ n)%Q -> (Py.round x n <= k # 10 ^ n)%Q.
Proof.
  intros Hk%scaled_le%round_half_even_le. unfold Py.round, Qle. simpl.
  by apply Z.mul_le_mono_nonneg_r.
Qed.

Lemma round_sign (x : Q) (n : positive) :
  ((0 < Py.round x n)%Q -> (0 < x)%Q) /\ ((Py.round x n < 0)%Q -> (x < 0)%Q).
Proof.
  split; intros Hr.
  - apply Qnot_le_lt. intros Hx.
    assert (x <= 0 # 10 ^ n)%Q as Hx' by (unfold Qle in *; simpl in *; lia).
    apply (round_le x n 0) in Hx'. unfold Qle, Qlt in *. simpl in *. lia.
  - apply Qnot_le_lt. intros Hx.
    assert (0 # 10 ^ n <= x)%Q as Hx' by (unfold Qle in *; simpl in *; lia).
    apply (round_ge x n 0) in Hx'. unfold Qle, Qlt in *. simpl in *. lia.
Qed.

(** X9: in a price record the change and the percentage are 0 when the
    previous close is 0, whatever the price; with a positive previous
    close, a positive reported percentage means the price is above the
    previous close and a negative one that it is below: rounding never
    turns a fall into a rise. *)
Theorem price_change_sign (ticker : string) (meta : QuoteMeta) :
  let r := price_record ticker meta in
  ((previousClose meta == 0)%Q ->
   (price_change r == 0)%Q /\ (price_change_pct r == 0)%Q)
  /\ ((0 < previousClose meta)%Q -> (0 < price_change_pct r)%Q ->
      (previousClose meta < regularMarketPrice meta)%Q)
  /\ ((0 < previousClose meta)%Q -> (price_change_pct r < 0)%Q ->
      (regularMarketPrice meta < previousClose meta)%Q).
Proof.
  destruct meta as [cur prev vol]. unfold price_record. simpl.
  destruct (Py.truthy prev) eqn:Hprev.
  - apply truthy_nonzero in Hprev. split_and!; [done | |].
    + intros Hpos Hpct%round_sign.
      apply Qnot_le_lt. intros Hle.
      assert ((cur - prev) / prev <= 0)%Q as Hdiv.
      { apply Qle_shift_div_r; [done | lra]. }
      lra.
    + intros Hpos Hpct%round_sign.
      apply Qnot_le_lt. intros Hle.
      assert (0 <= (cur - prev) / prev)%Q as Hdiv.
      { apply Qle_shift_div_l; [done | lra]. }
      lra.
  - assert (prev == 0)%Q as Hzero.
    { unfold Py.truthy in Hprev. by apply negb_false_iff, Qeq_bool_iff in Hprev. }
    split_and!; [done | |]; intros Hpos; lra.
Qed.

Lemma price_change_sign_witness :
  let r := price_record "GME" (mkMeta 25 0 1000) in
  (price_change r == 0)%Q /\ (price_change_pct r == 0)%Q.
Proof.
  apply (proj1 (price_change_sign "GME" (mkMeta 25 0 1000))). reflexivity.
Defined.

(** ** Synthetic metrics: coverage and ranges *)


Lemma uniform_between (a b x : Q) :
  (a <= b)%Q -> (0 <= x <= 1)%Q -> between a b (a + (b - a) * x).
Proof. intros Hab [H0 H1]. unfold between. split; nra. Qed.

(** Rounding to one digit keeps a value between bounds that have at most
    one digit themselves. *)
Lemma round1_between (lo hi x : Q) :
  (lo == Qfloor (lo * 10) # 10)%Q -> (hi == Qfloor (hi * 10) # 10)%Q ->
  between lo hi x -> between lo hi (Py.round x 1).
Proof.
  intros Hlo Hhi [H1 H2]. unfold between. split.
  - rewrite Hlo at 1. apply (round_ge x 1). by rewrite <- Hlo.
  - rewrite Hhi at 1. apply (round_le x 1). by rewrite <- Hhi.
Qed.

Lemma category_ranges_cases (ticker : string) :
  category_ranges ticker = ((15, 35), (75, 95), (10, 40))%Q
  \/ category_ranges ticker = ((20, 40), (80, 98), (15, 60))%Q
  \/ category_ranges ticker = ((1, 6), (20, 50), (5 # 10, 3))%Q
  \/ category_ranges ticker = ((8, 25), (50, 85), (3, 20))%Q.
Proof. unfold category_ranges. repeat case_match; auto. Qed.

Lemma scaled_between (lo hi x k : Q) :
  (0 <= lo)%Q -> between lo hi x -> between (2 # 10) (5 # 10) k ->
  between (lo * (2 # 10)) (hi * (5 # 10)) (x * k).
Proof. intros Hlo [H1 H2] [H3 H4]. unfold between. split; nra. Qed.

(** X11: when [random()] stays in the unit interval, the synthetic profile
    of a ticker outside the known-profile table lies in the ranges of its
    category: short interest, utilization and cost to borrow between the
    two bounds of their range, days to cover between 0.2 times the lower
    and 0.5 times the upper short-interest bound. *)
Theorem synthetic_ranges (w : World) (g : rng w) (ticker : string) :
  unit_random w -> dict_get known_profiles ticker = None ->
  let profile := profile_from w g ticker in
  let ranges := category_ranges ticker in
  between ranges.1.1.1 ranges.1.1.2 (si profile)
  /\ between ranges.1.2.1 ranges.1.2.2 (util profile)
  /\ between ranges.2.1 ranges.2.2 (ctb profile)
  /\ between (ranges.1.1.1 * (2 # 10)) (ranges.1.1.2 * (5 # 10)) (dtc profile).
Proof.
  intros Hunit Hknown. unfold profile_from, mock_profile. rewrite Hknown.
  unfold mbind, M_bind, mret, M_ret, random_seed, random_uniform,
    random_random, mbind, M_bind, mret, M_ret.
  destruct (category_ranges_cases ticker) as [-> | [-> | [-> | ->]]];
    cbn [fst snd rng_state net_log];
    repeat (match goal with
            | |- context [rng_random w ?g0] =>
                let H := fresh "Hdraw" in
                pose proof (Hunit g0) as H;
                destruct (rng_random w g0) as [? ?];
                cbn [fst snd rng_state net_log] in H |- *
            end);
    split_and!;
    first [ apply round1_between;
            [reflexivity | reflexivity | by apply uniform_between]
          | apply round1_between; [reflexivity | reflexivity |];
            apply scaled_between;
            [done | by apply uniform_between | by apply uniform_between] ].
Qed.

Lemma sample_unit_random : unit_random Sample.world.
Proof.
  intros g. simpl. unfold Qle. simpl.
  pose proof (Z.mod_pos_bound g 10 ltac:(lia)). lia.
Qed.

Lemma synthetic_ranges_witness :
  between 8 25 (si (profile_from Sample.world 7%Z "ZZZZ"))
  /\ between 50 85 (util (profile_from Sample.world 7%Z "ZZZZ")).
Proof.
  destruct (synthetic_ranges Sample.world 7%Z "ZZZZ" sample_unit_random
              eq_refl) as (Hsi & Hutil & _).
  split; [exact Hsi | exact Hutil].
Defined.

(** ** Scan orchestrator: coverage, counts and requests *)


Section ScanRun.
Context (w : World).
Implicit Types (s : State w) (key : json).

Lemma get_fast_run (ticker : string) key s :
  exists tried,
    tried `prefix_of` working_endpoints ticker
    /\ (get_fast_ortex_data ticker key s).2 = logged s tried.
Proof.
  unfold get_fast_ortex_data. destruct (json_truthy key);
    unfold negb; cbv beta iota.
  - destruct (try_endpoints_run w (working_endpoints ticker) key s)
      as (tried & Hpre & Hstate & _).
    by exists tried.
  - exists []. split; [apply prefix_nil |].
    unfold mret, M_ret. simpl. by rewrite logged_nil.
Qed.




End ScanRun.




(** X14: the batch has at most 10 tickers when [max_tickers] is absent and
    at most [min(max_tickers, 15)] when it is given and not negative; a
    negative [max_tickers] is not bounded by 15: it drops that many
    tickers from the end of the selection. *)
Theorem batch_size (w : World) (filters : option Filters) :
  (filters ≫= max_tickers = None ->
   (length (scan_batch w filters) <= 10)%nat)
  /\ (forall n : Z,
        filters ≫= max_tickers = Some n -> (0 <= n)%Z ->
        (length (scan_batch w filters) <= 15)%nat
        /\ (Z.of_nat (length (scan_batch w filters)) <= n)%Z)
  /\ (forall n : Z,
        filters ≫= max_tickers = Some n -> (n < 0)%Z ->
        scan_batch w filters
        = take (length (scan_tickers_for w filters) - Z.to_nat (- n))
               (scan_tickers_for w filters)).
Proof.
  assert (forall n, filters ≫= max_tickers = Some n ->
            filters_truthy filters = true) as Htruthy.
  { intros n Hmax. destruct filters as [f |]; [| done]. simpl in Hmax.
    unfold filters_truthy. rewrite Hmax. simpl. by rewrite orb_true_r. }
  split_and!.
  - intros Hmax. unfold scan_batch. rewrite Hmax.
    unfold default, max_safe_batch_size.
    destruct (filters_truthy filters);
      rewrite slice_to_nonneg by lia; rewrite length_take; lia.
  - intros n Hmax Hn. unfold scan_batch.
    rewrite (Htruthy n Hmax), Hmax. simpl.
    rewrite slice_to_nonneg by (unfold max_safe_batch_size; lia).
    rewrite length_take. unfold max_safe_batch_size. lia.
  - intros n Hmax Hn. unfold scan_batch.
    rewrite (Htruthy n Hmax), Hmax. simpl.
    unfold Py.slice_to, max_safe_batch_size.
    rewrite Z.min_l by lia.
    destruct (Z.leb_spec 0 n) as [? | _]; [lia |].
    f_equal. lia.
Qed.

Lemma batch_size_witness :
  length (scan_batch Sample.world (Some (mkFilters None (Some (-1)%Z) None)))
  = 71%nat
  /\ (length (scan_batch Sample.world
                 (Some (mkFilters None (Some 40%Z) None))) <= 15)%nat.
Proof.
  split.
  - rewrite (proj2 (proj2 (batch_size Sample.world
               (Some (mkFilters None (Some (-1)%Z) None)))) (-1)%Z eq_refl
               ltac:(lia)).
    vm_compute. reflexivity.
  - apply (proj1 (proj2 (batch_size Sample.world
             (Some (mkFilters None (Some 40%Z) None)))) 40%Z eq_refl
             ltac:(lia)).
Defined.

(** ** Single-ticker endpoint: success and malformed bodies *)

(** X15: for a body that is a dict with a non-empty ticker string whose
    quote request succeeds, the single scan answers 200 with success and a
    result for the upper-cased ticker that merges its quote with a live or
    a synthetic metrics record and carries the score breakdown; the quote
    is its first request and at most two metrics requests follow. *)
Theorem single_scan_success (w : World) (post_data : string)
    (items : list (string * json)) (s : State w) (t : string)
    (meta : QuoteMeta) :
  request_dict w post_data items ->
  dict_get items "ticker" = Some (JStr t) -> t <> EmptyString ->
  yahoo_http w (quote_url (Py.upper t)) = Some meta ->
  let price := price_record (Py.upper t) meta in
  exists (m : Metrics) (extra : list string),
    (handle_single_scan (Ok post_data) s).1
    = {| status := 200;
         body := {|
           success := true; error := None;
           result := Some {|
             sr_result := merge_result (Py.upper t) m price;
             sr_score_breakdown :=
               score_breakdown (calculate_squeeze_score m price) |} |} |}
    /\ (data_quality m = "live_ortex"
        \/ data_quality m = "realistic_estimate")
    /\ net_log (handle_single_scan (Ok post_data) s).2
       = (net_log s ++ quote_url (Py.upper t) :: extra)%list
    /\ (length extra <= 2)%nat.
Proof.
  intros Hbody Hticker Hne Hprice price.
  destruct (decode_single_scan_dict w post_data items t Hbody)
    as (ortex_key & Hdecode); [by rewrite Hticker |].
  unfold handle_single_scan. rewrite Hdecode.
  assert (String.eqb (Py.upper t) EmptyString = false) as ->.
  { apply String.eqb_neq. by rewrite upper_empty. }
  unfold get_yahoo_price_data, mbind, M_bind, mret, M_ret. cbn [price_loop].
  unfold mbind, M_bind, mret, M_ret, log_request. rewrite Hprice.
  rewrite lookup_insert_eq. fold price.
  set (s1 := mkState (net_log s ++ [quote_url (Py.upper t)]) (rng_state s)).
  assert (exists tried,
    (length tried <= 2)%nat
    /\ ((if json_truthy ortex_key
         then get_fast_ortex_data (Py.upper t) ortex_key
         else fun s0 => (None, s0)) s1).2 = logged s1 tried
    /\ forall m,
         ((if json_truthy ortex_key
           then get_fast_ortex_data (Py.upper t) ortex_key
           else fun s0 => (None, s0)) s1).1 = Some m ->
         data_quality m = "live_ortex") as (tried & Hlen & Hstate & Hlive).
  { destruct (json_truthy ortex_key).
    - destruct (get_fast_run w (Py.upper t) ortex_key s1)
        as (tried & Hpre & Hstate).
      exists tried. split_and!; [| done |].
      + apply prefix_length in Hpre. by simpl in Hpre.
      + intros m Hm.
        destruct (get_fast_ortex_data (Py.upper t) ortex_key s1)
          as [res s2] eqn:Hget. simpl in Hm. subst res.
        apply get_fast_ortex_data_Some in Hget as [_ Hf].
        by eapply fetched_live.
    - exists []. simpl. rewrite logged_nil.
      split_and!; [lia | done | done]. }
  destruct ((if json_truthy ortex_key
             then get_fast_ortex_data (Py.upper t) ortex_key
             else fun s0 => (None, s0)) s1) as [[m |] s2].
  - cbn [fst snd] in Hstate, Hlive. subst s2. exists m, tried.
    cbv beta iota zeta. cbn [fst snd].
    split_and!; [done | left; by apply Hlive | | done].
    unfold logged, s1. cbn [net_log]. by rewrite <- app_assoc.
  - cbn [fst snd] in Hstate. subst s2. cbv beta iota zeta.
    pose proof (generate_lookup w [Py.upper t] (logged s1 tried)
                  (rng_state s) (Py.upper t)) as Hlookup.
    pose proof (generate_log w [Py.upper t] (logged s1 tried)) as Hlog.
    destruct (generate_realistic_mock_data [Py.upper t] (logged s1 tried))
      as [mock s3]. cbn [fst snd] in Hlookup, Hlog.
    rewrite decide_True in Hlookup by (by left).
    unfold getitem. rewrite Hlookup. cbv beta iota zeta. cbn [fst snd].
    eexists _, tried. split_and!; [done | by right | | done].
    rewrite Hlog. unfold logged, s1. cbn [net_log]. by rewrite <- app_assoc.
Qed.

Lemma single_scan_success_witness :
  status (handle_single_scan (Ok "{'ticker': 'gme'}") Sample.start).1 = 200%Z
  /\ success (body (handle_single_scan (Ok "{'ticker': 'gme'}")
                      Sample.start).1) = true.
Proof.
  assert (request_dict Sample.world "{'ticker': 'gme'}"
            [("ticker", JStr "gme")]) as Hbody.
  { right. split; [discriminate | reflexivity]. }
  destruct (single_scan_success Sample.world _ _ Sample.start "gme"
              (mkMeta 25 20 1000) Hbody eq_refl ltac:(discriminate) eq_refl)
    as (m & extra & -> & _).
  split; reflexivity.
Defined.

(** X16: a single-scan request whose body cannot be read, does not parse,
    parses to something that is not a dict, or has a ticker that is not a
    string is answered with status 500 and success false, and no request
    is made. *)
Theorem single_scan_malformed (w : World) (s : State w) :
  (forall e : string,
     exists msg, handle_single_scan (Raise e) s = (error_response msg 500, s))
  /\ (forall body : string,
        body <> EmptyString -> json_loads w body = None ->
        exists msg,
          handle_single_scan (Ok body) s = (error_response msg 500, s))
  /\ (forall (body : string) (data : json),
        body <> EmptyString -> json_loads w body = Some data ->
        (forall items, data <> JObj items) ->
        exists msg,
          handle_single_scan (Ok body) s = (error_response msg 500, s))
  /\ (forall (body : string) (items : list (string * json)) (v : json),
        request_dict w body items -> dict_get items "ticker" = Some v ->
        (forall t, v <> JStr t) ->
        exists msg,
          handle_single_scan (Ok body) s = (error_response msg 500, s)).
Proof.
  split_and!.
  - intros e. by exists e.
  - intros body Hne%String.eqb_neq Hloads. eexists.
    unfold handle_single_scan, decode_single_scan, mbind, exn_bind.
    by rewrite Hne, Hloads.
  - intros body data Hne%String.eqb_neq Hloads Hobj. eexists.
    unfold handle_single_scan, decode_single_scan, mbind, exn_bind.
    rewrite Hne, Hloads. destruct data; try done. by destruct (Hobj items).
  - intros body items v Hbody Hticker Hstr. eexists.
    unfold handle_single_scan, decode_single_scan, mbind, exn_bind.
    assert ((if String.eqb body EmptyString then Ok (JObj [])
             else match json_loads w body with
                  | Some data => Ok data
                  | None => Raise "JSONDecodeError"
                  end) = Ok (JObj items)) as ->.
    { destruct Hbody as [[-> ->] | [Hne ->]]; [done |].
      by apply String.eqb_neq in Hne as ->. }
    unfold py_get. cbv beta iota. rewrite Hticker. simpl.
    destruct v; try done. by destruct (Hstr s0).
Qed.

Lemma single_scan_malformed_witness :
  exists msg,
    handle_single_scan (Ok "not json") Sample.start
    = (error_response msg 500, Sample.start).
Proof.
  apply (proj1 (proj2 (single_scan_malformed Sample.world Sample.start))
           "not json"); [discriminate | reflexivity].
Defined.

(** ** Ranking and deduplication *)

(** X17: ranking leaves a list that is already in descending order of
    score exactly as it is, so ranking twice is ranking once. *)
Theorem rank_fixed_point (merged : list ScanResult) :
  (descending r_squeeze_score merged -> rank merged = merged)
  /\ rank (rank merged) = rank merged.
Proof.
  assert (forall l, descending r_squeeze_score l -> rank l = l) as Hfix.
  { intros l Hl. unfold rank.
    apply (stable_descending_unique r_squeeze_score);
      [apply sort_reverse_descending | exact Hl |].
    intros k. apply sort_reverse_stable. }
  split; [apply Hfix |]. apply Hfix. apply sort_reverse_descending.
Qed.

Lemma rank_fixed_point_witness :
  let ortex := mock_record (mkProfile 10 50 5 2) in
  let res (ticker : string) (score : Z) :=
    mkResult ticker score "Low Risk" 10 0 0 1000 ortex []
             "realistic_estimate" in
  rank [res "GME" 40%Z; res "AMC" 40%Z; res "AAPL" 7%Z]
  = [res "GME" 40%Z; res "AMC" 40%Z; res "AAPL" 7%Z].
Proof.
  intros ortex res. apply (proj1 (rank_fixed_point _)).
  unfold descending. repeat constructor; simpl; lia.
Defined.

Lemma dedup_seen_app (seen : gset string) (l1 l2 : list string) :
  dedup_seen seen (l1 ++ l2)
  = (dedup_seen seen l1 ++ dedup_seen (seen ∪ list_to_set l1) l2)%list.
Proof.
  revert seen. induction l1 as [| x l1 IH]; intros seen; simpl.
  - f_equal. set_solver.
  - destruct (decide (x ∈ seen)) as [Hin | Hnin].
    + rewrite IH. do 2 f_equal. set_solver.
    + rewrite IH. simpl. do 3 f_equal. set_solver.
Qed.

Lemma dedup_seen_all_seen (seen : gset string) (l : list string) :
  (forall x, x ∈ l -> x ∈ seen) -> dedup_seen seen l = [].
Proof.
  induction l as [| x l IH]; intros Hall; simpl; [done |].
  rewrite decide_True by (apply Hall; by left).
  apply IH. intros y Hy. apply Hall. by right.
Qed.

(** X18: the deduplication of [__init__] returns a list without
    repetitions unchanged, changes nothing when applied again, keeps the
    first element of a list in front, and ignores tables that are
    repeated after the list. *)
Theorem dedup_first_occurrences (l : list string) :
  (NoDup l -> dedup_seen ∅ l = l)
  /\ dedup_seen ∅ (dedup_seen ∅ l) = dedup_seen ∅ l
  /\ (length (dedup_seen ∅ l) <= length l)%nat
  /\ (forall x l', l = x :: l' -> exists rest, dedup_seen ∅ l = x :: rest)
  /\ dedup_seen ∅ (l ++ l) = dedup_seen ∅ l.
Proof.
  assert (forall k, NoDup k -> dedup_seen ∅ k = k) as Hid.
  { intros k Hk. apply dedup_seen_id; [done |]. set_solver. }
  split_and!.
  - apply Hid.
  - apply Hid, dedup_seen_NoDup.
  - apply sublist_length, dedup_seen_sublist.
  - intros x l' ->. simpl. rewrite decide_False by set_solver. by eexists.
  - rewrite dedup_seen_app.
    rewrite (dedup_seen_all_seen (∅ ∪ list_to_set l) l) by set_solver.
    by rewrite app_nil_r.
Qed.

Lemma dedup_first_occurrences_witness :
  dedup_seen ∅ ["GME"; "AMC"; "AAPL"] = ["GME"; "AMC"; "AAPL"].
Proof.
  apply (proj1 (dedup_first_occurrences ["GME"; "AMC"; "AAPL"])).
  apply (NoDup_ListNoDup _). repeat constructor; simpl; intuition discriminate.
Defined.
